(** * BulidRunTaskProvider (src/tasks/taskProvider.ts)

    A shallow embedding of the build/run task provider of the BeeWare
    extension.  The provider is glue between injected services (logger,
    output channel, workspace picker, module installer, application shell,
    configuration, process factory).  The services are modelled by a record
    of answers ([Services]); what the provider does to them is recorded, in
    program order, in a trace of [Event]s.  The promise created inside the
    progress callback is a cell of the state.

    Scope of the model: every service call returns normally (no service
    throws and no awaited service promise rejects); an observable honours
    the Rx contract (zero or more items, then at most one of error or
    complete). *)

From Stdlib Require Import String List Bool.
Import ListNotations.
Open Scope string_scope.

(** ** Data carried by the provider *)

Definition Target := string.

Record Uri := { fsPath : string }.
Record WorkspaceFolder := { uri : Uri }.

(** The two settings the handler reads. *)
Record Settings := { pythonPath : string; beewarePath : string }.

(** Result of [BeeWareExecutionHelper.buildExecutionArgs]. *)
Record ExecutionInfo := { command : string; args : list string }.

Definition CancellationToken := nat.
Record SpawnOptions := { cwd : string; token : CancellationToken }.

(** An item of the process output stream: [item.source], [item.out]. *)
Record Output := { source : string; out : string }.

(** How an observable ends. *)
Inductive Ending :=
| Completes
| Errors (error : string)
| NeverEnds.

(** [output.out]: the items pushed to a subscriber, then the ending. *)
Record ObservableOutput := { emitted : list Output; ending : Ending }.

Inductive ProgressLocation := SourceControl | Window | Notification.
Record ProgressOptions :=
  { location : ProgressLocation; title : string; cancellable : bool }.

(** The service returned by [processExecutionFactory.create(resource)]. *)
Record ProcessService := { resource : Uri }.

(** The type ['build' | 'run'] of the mode flag, and its runtime value. *)
Inductive BuildOrRun := lit_build | lit_run.

Definition literal (b : BuildOrRun) : string :=
  match b with
  | lit_build => "build"
  | lit_run => "run"
  end.

(** JavaScript truthiness of a string: only the empty string is falsy. *)
Definition truthy (s : string) : bool :=
  match s with
  | EmptyString => false
  | String _ _ => true
  end.

(** State of a [Promise<void>]. *)
Inductive PromiseState :=
| Pending
| Fulfilled
| Rejected (reason : string).

(** ** Imports and injected services *)

(** Names imported from modules of the repository that are outside the
    file: [EOL] (os), [ApplicationName] (../common/constants) and
    [BeeWareExecutionHelper.buildExecutionArgs] (./helper).  They are
    parameters of the development. *)
Record Imports := {
  EOL : string;
  ApplicationName : string;
  buildExecutionArgs : string -> string -> ExecutionInfo
}.

(** Answers of the injected services. *)
Record Services := {
  selectWorkspaceFolder : option WorkspaceFolder;
  isInstalled : string -> Uri -> bool;
  install : string -> Uri -> bool;
  showInformationMessage : string -> list string -> option string;
  getSettings : Uri -> Settings;
  progressToken : CancellationToken;
  execObservable :
    ProcessService -> string -> list string -> SpawnOptions -> ObservableOutput
}.

(** ** Effects *)

Inductive Event :=
| LoggerInfo (message : string)
| LoggerError (message : string) (data : option string)
| SelectWorkspaceFolder
| IsInstalled (moduleName : string) (workspaceFolder : Uri)
| ShowInformationMessage (message : string) (items : list string)
| Install (moduleName : string) (workspaceFolder : Uri)
| CreateProcessService (workspaceFolder : Uri)
| GetSettings (workspaceFolder : Uri)
| OutputChannelShow
| OutputChannelAppend (value : string)
| WithProgress (options : ProgressOptions)
| ExecObservable (service : ProcessService) (file : string)
    (arguments : list string) (options : SpawnOptions).

(** [completion] is the promise built in the progress callback: [None]
    until [new Promise] runs. *)
Record State := { trace : list Event; completion : option PromiseState }.

Definition initial : State := {| trace := []; completion := None |}.

Definition M (A : Type) : Type := State -> A * State.

Definition ret {A} (a : A) : M A := fun st => (a, st).

Definition bind {A B} (c : M A) (k : A -> M B) : M B :=
  fun st => let (a, st') := c st in k a st'.

Declare Scope task_scope.
Delimit Scope task_scope with task.
Notation "x <- c ;; k" := (bind c (fun x => k))
  (at level 61, c at next level, right associativity) : task_scope.
Notation "c ;; k" := (bind c (fun _ => k))
  (at level 61, right associativity) : task_scope.
Open Scope task_scope.

Definition emit (e : Event) : M unit :=
  fun st => (tt, {| trace := trace st ++ [e]; completion := completion st |}).

(** [new Promise(executor)]: the promise starts pending and the executor
    runs at once. *)
Definition new_Promise (executor : M unit) : M unit :=
  fun st => executor {| trace := trace st; completion := Some Pending |}.

(** [resolve()] and [reject(error)] settle a pending promise and do nothing
    to a settled one. *)
Definition settle (p : PromiseState) : M unit :=
  fun st =>
    (tt, match completion st with
         | Some Pending => {| trace := trace st; completion := Some p |}
         | _ => st
         end).

Definition resolve : M unit := settle Fulfilled.
Definition reject (error : string) : M unit := settle (Rejected error).

(** An [async] function whose body returns normally fulfils its promise. *)
Definition async (body : M unit) : M PromiseState :=
  body ;; ret Fulfilled.

Fixpoint forEach {A} (f : A -> M unit) (xs : list A) : M unit :=
  match xs with
  | [] => ret tt
  | x :: xs' => f x ;; forEach f xs'
  end.

(** [observable.subscribe(next, error, complete)]. *)
Definition subscribe (o : ObservableOutput)
    (next : Output -> M unit) (error : string -> M unit) (complete : M unit)
    : M unit :=
  forEach next (emitted o) ;;
  match ending o with
  | Completes => complete
  | Errors e => error e
  | NeverEnds => ret tt
  end.

(** ** The provider *)

Section Provider.

Variable imports : Imports.
Variable services : Services.

Definition logger_info (message : string) : M unit :=
  emit (LoggerInfo message).

Definition logger_error (message : string) (data : option string) : M unit :=
  emit (LoggerError message data).

Definition outputChannel_show : M unit := emit OutputChannelShow.

Definition outputChannel_append (value : string) : M unit :=
  emit (OutputChannelAppend value).

Definition workspaceService_selectWorkspaceFolder : M (option WorkspaceFolder) :=
  emit SelectWorkspaceFolder ;; ret (selectWorkspaceFolder services).

Definition moduleInstaller_isInstalled (moduleName : string) (folder : Uri)
    : M bool :=
  emit (IsInstalled moduleName folder) ;;
  ret (isInstalled services moduleName folder).

Definition moduleInstaller_install (moduleName : string) (folder : Uri)
    : M bool :=
  emit (Install moduleName folder) ;;
  ret (install services moduleName folder).

Definition shell_showInformationMessage (message : string) (items : list string)
    : M (option string) :=
  emit (ShowInformationMessage message items) ;;
  ret (showInformationMessage services message items).

Definition processExecutionFactory_create (folder : Uri) : M ProcessService :=
  emit (CreateProcessService folder) ;; ret {| resource := folder |}.

Definition configurationService_getSettings (folder : Uri) : M Settings :=
  emit (GetSettings folder) ;; ret (getSettings services folder).

Definition executionService_execObservable (service : ProcessService)
    (file : string) (arguments : list string) (options : SpawnOptions)
    : M ObservableOutput :=
  emit (ExecObservable service file arguments options) ;;
  ret (execObservable services service file arguments options).

(** [shell.withProgress(options, task)]: the shell calls [task] once, with
    its cancellation token.  The thenable it returns is dropped by the
    caller. *)
Definition shell_withProgress (options : ProgressOptions)
    (task : CancellationToken -> M unit) : M unit :=
  emit (WithProgress options) ;; task (progressToken services).

(** [result !== s] for the answer of the prompt ([undefined] when the
    prompt is dismissed). *)
Definition strictNotEqual (result : option string) (s : string) : bool :=
  match result with
  | Some answer => negb (answer =? s)
  | None => true
  end.

(** [checkAndInstallModule], lines 76-92.  [installStep] is the code from
    line 86 on, reached from both branches of the test of line 79. *)
Definition checkAndInstallModule (moduleName : string) (workspaceFolder : Uri)
    : M bool :=
  let installStep : M bool :=
    installed <- moduleInstaller_install moduleName workspaceFolder ;;
    if negb installed then ret false else
    logger_info ("Module '" ++ moduleName ++ "' is installed.") ;;
    ret true in
  logger_info ("Checking if module '" ++ moduleName ++ "' is installed.") ;;
  cookieCutterIsInstalled <- moduleInstaller_isInstalled moduleName workspaceFolder ;;
  if negb cookieCutterIsInstalled then
    result <- shell_showInformationMessage
      ("Module '" ++ moduleName ++ "' not installed, would you like to install it?")
      ["Install"; "Cancel"] ;;
    if strictNotEqual result "Install" then ret false else installStep
  else installStep.

(** The [next] callback of the subscription, lines 61-67. *)
Definition onNext (item : Output) : M unit :=
  (if source item =? "stderr" then logger_error (out item) None
   else logger_info (out item)) ;;
  outputChannel_append (out item).

(** The [error] callback, lines 68-70. *)
Definition onError (buildOrRun : BuildOrRun) (error : string) : M unit :=
  logger_error
    ((if truthy (literal buildOrRun) then "Build" else "Run") ++ " failed")
    (Some error) ;;
  reject error.

(** The [complete] callback, lines 71-73. *)
Definition onComplete : M unit := resolve.

(** [buildHandler], lines 38-75. *)
Definition buildHandler (buildOrRun : BuildOrRun) (target : Target)
    : M PromiseState :=
  async (
    logger_info (EOL imports) ;;
    logger_info ((if truthy (literal buildOrRun) then "Build" else "Run")
                 ++ " '" ++ target ++ "'") ;;
    workspaceFolder <- workspaceService_selectWorkspaceFolder ;;
    match workspaceFolder with
    | None => ret tt
    | Some workspaceFolder =>
      ready <- checkAndInstallModule "beeware" (uri workspaceFolder) ;;
      if negb ready then ret tt else
      executionService <- processExecutionFactory_create (uri workspaceFolder) ;;
      settings1 <- configurationService_getSettings (uri workspaceFolder) ;;
      let pythonPath := pythonPath settings1 in
      settings2 <- configurationService_getSettings (uri workspaceFolder) ;;
      let beewarePath := beewarePath settings2 in
      let executionInfo := buildExecutionArgs imports pythonPath beewarePath in
      let title :=
        (if truthy (literal buildOrRun) then "Building" else "Running")
        ++ " " ++ ApplicationName imports ++ " on " ++ target in
      let options :=
        {| location := Notification; title := title; cancellable := true |} in
      outputChannel_show ;;
      shell_withProgress options (fun token =>
        new_Promise (
          let cmd := if literal buildOrRun =? "build" then "build" else "run" in
          let args := (args executionInfo ++ [cmd; target])%list in
          output <- executionService_execObservable executionService
                      (command executionInfo) args
                      {| cwd := fsPath (uri workspaceFolder); token := token |} ;;
          subscribe output onNext (onError buildOrRun) onComplete))
    end).

(** [build] and [run], lines 32-37: the handler's promise is dropped. *)
Definition build (target : Target) : M PromiseState :=
  async (_ <- buildHandler lit_build target ;; ret tt).

Definition run (target : Target) : M PromiseState :=
  async (_ <- buildHandler lit_run target ;; ret tt).

End Provider.

(** ** Observing a run *)

(** A run starts from the empty trace, with no completion promise. *)
Definition returned {A} (c : M A) : A := fst (c initial).
Definition traceOf {A} (c : M A) : list Event := trace (snd (c initial)).
Definition promiseOf {A} (c : M A) : option PromiseState :=
  completion (snd (c initial)).

(** The public operation for a mode. *)
Definition entryPoint (imports : Imports) (services : Services)
    (buildOrRun : BuildOrRun) : Target -> M PromiseState :=
  match buildOrRun with
  | lit_build => build imports services
  | lit_run => run imports services
  end.

Fixpoint pick {A} (f : Event -> option A) (t : list Event) : list A :=
  match t with
  | [] => []
  | e :: t' =>
    match f e with
    | Some a => a :: pick f t'
    | None => pick f t'
    end
  end.

Inductive Severity := SevInfo | SevError.

(** The log sink: severity and message of each logger call. *)
Definition loggerEntries : list Event -> list (Severity * string) :=
  pick (fun e =>
    match e with
    | LoggerInfo message => Some (SevInfo, message)
    | LoggerError message _ => Some (SevError, message)
    | _ => None
    end).

Definition loggerLines (t : list Event) : list string :=
  map snd (loggerEntries t).

(** Where a piece of text was sent. *)
Inductive Sink := ToLogger | ToDisplay.

Definition deliveries : list Event -> list (Sink * string) :=
  pick (fun e =>
    match e with
    | LoggerInfo message => Some (ToLogger, message)
    | LoggerError message _ => Some (ToLogger, message)
    | OutputChannelAppend value => Some (ToDisplay, value)
    | _ => None
    end).

(** The calls of [execObservable]. *)
Definition spawns
    : list Event -> list (ProcessService * string * list string * SpawnOptions) :=
  pick (fun e =>
    match e with
    | ExecObservable service file arguments options =>
      Some (service, file, arguments, options)
    | _ => None
    end).

(** The calls of [moduleInstaller.install]. *)
Definition installs : list Event -> list (string * Uri) :=
  pick (fun e =>
    match e with
    | Install moduleName folder => Some (moduleName, folder)
    | _ => None
    end).

(** The folders whose settings were read. *)
Definition settingsReads : list Event -> list Uri :=
  pick (fun e =>
    match e with
    | GetSettings folder => Some folder
    | _ => None
    end).

(** The prompts shown to the user. *)
Definition prompts : list Event -> list (string * list string) :=
  pick (fun e =>
    match e with
    | ShowInformationMessage message items => Some (message, items)
    | _ => None
    end).

(** ** Closed form of a run

    The trace the handler leaves, written out by cases on the answers of
    the services.  [buildHandler_run] below proves that the handler
    produces exactly this trace. *)

Definition promptText : string :=
  "Module 'beeware' not installed, would you like to install it?".

(** The user is past the prompt: the module was found, or the answer to the
    prompt was 'Install'. *)
Definition accepted (services : Services) (folder : Uri) : bool :=
  isInstalled services "beeware" folder
  || negb (strictNotEqual
             (showInformationMessage services promptText ["Install"; "Cancel"])
             "Install").

(** What one output item leaves in the trace. *)
Definition lineEvents (item : Output) : list Event :=
  [ if source item =? "stderr" then LoggerError (out item) None
    else LoggerInfo (out item);
    OutputChannelAppend (out item) ].

(** The logger entry of an output item. *)
Definition lineEntry (item : Output) : Severity * string :=
  (if source item =? "stderr" then SevError else SevInfo, out item).

(** What the end of the stream leaves in the trace, and in the promise. *)
Definition closing (e : Ending) : list Event :=
  match e with
  | Errors err => [LoggerError "Build failed" (Some err)]
  | _ => []
  end.

Definition settlement (e : Ending) : PromiseState :=
  match e with
  | Completes => Fulfilled
  | Errors err => Rejected err
  | NeverEnds => Pending
  end.

(** The events of the subprocess stage proper (lines 49 and 60). *)
Definition stageEvent (e : Event) : bool :=
  match e with
  | CreateProcessService _ => true
  | ExecObservable _ _ _ _ => true
  | _ => false
  end.

Section ClosedForm.

Variable imports : Imports.
Variable services : Services.
Variable buildOrRun : BuildOrRun.
Variable target : Target.

(** The arguments of the one [execObservable] call for a folder. *)
Definition spawnInfo (folder : Uri) : ExecutionInfo :=
  let settings := getSettings services folder in
  buildExecutionArgs imports (pythonPath settings) (beewarePath settings).

Definition spawnArgs (folder : Uri) : list string :=
  (args (spawnInfo folder)
   ++ [match buildOrRun with lit_build => "build" | lit_run => "run" end;
       target])%list.

Definition spawnOptions (folder : Uri) : SpawnOptions :=
  {| cwd := fsPath folder; token := progressToken services |}.

Definition spawnOutput (folder : Uri) : ObservableOutput :=
  execObservable services {| resource := folder |}
    (command (spawnInfo folder)) (spawnArgs folder) (spawnOptions folder).

Definition stageTrace (folder : Uri) : list Event :=
  ([ CreateProcessService folder;
     GetSettings folder;
     GetSettings folder;
     OutputChannelShow;
     WithProgress {| location := Notification;
                     title := "Building " ++ ApplicationName imports
                              ++ " on " ++ target;
                     cancellable := true |};
     ExecObservable {| resource := folder |}
       (command (spawnInfo folder)) (spawnArgs folder) (spawnOptions folder) ]
   ++ flat_map lineEvents (emitted (spawnOutput folder))
   ++ closing (ending (spawnOutput folder)))%list.

Definition checkTrace (folder : Uri) : list Event :=
  ([ LoggerInfo "Checking if module 'beeware' is installed.";
     IsInstalled "beeware" folder ]
   ++ (if isInstalled services "beeware" folder then []
       else [ShowInformationMessage promptText ["Install"; "Cancel"]])
   ++ (if accepted services folder then
         Install "beeware" folder ::
         (if install services "beeware" folder then
            [LoggerInfo "Module 'beeware' is installed."]
          else [])
       else []))%list.

(** The module check lets the handler go on. *)
Definition moduleReady (folder : Uri) : bool :=
  accepted services folder && install services "beeware" folder.

Definition handlerTrace : list Event :=
  ([ LoggerInfo (EOL imports);
     LoggerInfo ("Build '" ++ target ++ "'");
     SelectWorkspaceFolder ]
   ++ match selectWorkspaceFolder services with
      | None => []
      | Some workspaceFolder =>
        checkTrace (uri workspaceFolder)
        ++ (if moduleReady (uri workspaceFolder)
            then stageTrace (uri workspaceFolder) else [])
      end)%list.

Definition handlerCompletion : option PromiseState :=
  match selectWorkspaceFolder services with
  | None => None
  | Some workspaceFolder =>
    if moduleReady (uri workspaceFolder)
    then Some (settlement (ending (spawnOutput (uri workspaceFolder))))
    else None
  end.

End ClosedForm.

(** ** Sample hosts *)

Definition posixEOL : string := String (Ascii.ascii_of_nat 10) EmptyString.

Definition sampleImports : Imports :=
  {| EOL := posixEOL;
     ApplicationName := "BeeWare";
     buildExecutionArgs := fun python beeware =>
       {| command := python; args := ["-m"; beeware] |} |}.

Definition sampleFolder : WorkspaceFolder :=
  {| uri := {| fsPath := "/home/dev/app" |} |}.

Definition sampleOutput (e : Ending) : ObservableOutput :=
  {| emitted := [ {| source := "stdout"; out := "compiling" |};
                  {| source := "stderr"; out := "warning: unused" |};
                  {| source := "stdout"; out := "done" |} ];
     ending := e |}.

Definition sampleServices (folder : option WorkspaceFolder) (found : bool)
    (answer : option string) (installOk : bool) (e : Ending) : Services :=
  {| selectWorkspaceFolder := folder;
     isInstalled := fun _ _ => found;
     install := fun _ _ => installOk;
     showInformationMessage := fun _ _ => answer;
     getSettings := fun _ =>
       {| pythonPath := "python3"; beewarePath := "beeware" |};
     progressToken := 7;
     execObservable := fun _ _ _ _ => sampleOutput e |}.

(** The module is found and installs; the stream ends with [e]. *)
Definition readyServices (e : Ending) : Services :=
  sampleServices (Some sampleFolder) true None true e.

(** The module is missing and the user answers 'Cancel'. *)
Definition declinedServices : Services :=
  sampleServices (Some sampleFolder) false (Some "Cancel") true Completes.

(** The folder picker is dismissed. *)
Definition noFolderServices : Services :=
  sampleServices None true None true Completes.

(** [install] reports failure. *)
Definition installFailsServices : Services :=
  sampleServices (Some sampleFolder) true None false Completes.

(** ** Further observations *)

(** The calls of [workspaceService.selectWorkspaceFolder]. *)
Definition selections : list Event -> list unit :=
  pick (fun e =>
    match e with
    | SelectWorkspaceFolder => Some tt
    | _ => None
    end).

(** The calls of [moduleInstaller.isInstalled]. *)
Definition installedQueries : list Event -> list (string * Uri) :=
  pick (fun e =>
    match e with
    | IsInstalled moduleName folder => Some (moduleName, folder)
    | _ => None
    end).

(** The calls of [shell.withProgress]. *)
Definition progressStarts : list Event -> list ProgressOptions :=
  pick (fun e =>
    match e with
    | WithProgress options => Some options
    | _ => None
    end).

(** What happens to the output channel: [show] and [append]. *)
Definition channelEvents : list Event -> list Event :=
  pick (fun e =>
    match e with
    | OutputChannelShow => Some e
    | OutputChannelAppend _ => Some e
    | _ => None
    end).

(** What the user can see happen around the subprocess: the channel, the
    progress notification and the subprocess call itself. *)
Definition uiEvents : list Event -> list Event :=
  pick (fun e =>
    match e with
    | OutputChannelShow => Some e
    | OutputChannelAppend _ => Some e
    | WithProgress _ => Some e
    | ExecObservable _ _ _ _ => Some e
    | _ => None
    end).

(** The failure entries of the log: error entries logged together with an
    error, as (message, error). *)
Definition failures : list Event -> list (string * string) :=
  pick (fun e =>
    match e with
    | LoggerError message (Some error) => Some (message, error)
    | _ => None
    end).

(** The part of a trace that precedes the first [execObservable] call. *)
Fixpoint beforeSpawn (t : list Event) : list Event :=
  match t with
  | [] => []
  | ExecObservable _ _ _ _ :: _ => []
  | e :: t' => e :: beforeSpawn t'
  end.

(** The same services, with the prompt always answered by [answer]. *)
Definition withAnswer (services : Services) (answer : option string)
    : Services :=
  {| selectWorkspaceFolder := selectWorkspaceFolder services;
     isInstalled := isInstalled services;
     install := install services;
     showInformationMessage := fun _ _ => answer;
     getSettings := getSettings services;
     progressToken := progressToken services;
     execObservable := execObservable services |}.

(** ** The run of the handler *)

Lemma pick_app {A} (f : Event -> option A) (t1 t2 : list Event) :
  pick f (t1 ++ t2) = (pick f t1 ++ pick f t2)%list.
Proof.
  induction t1 as [|e t1 IH]; simpl.
  - reflexivity.
  - destruct (f e); simpl; now rewrite IH.
Qed.

(** Delivering the items of a stream appends [lineEvents] of each, in order,
    and leaves the promise alone. *)
Lemma forEach_onNext (items : list Output) (st : State) :
  forEach onNext items st
  = (tt, {| trace := (trace st ++ flat_map lineEvents items)%list;
            completion := completion st |}).
Proof.
  revert st.
  induction items as [|item items IH]; intros st.
  - simpl. unfold ret. rewrite app_nil_r. now destruct st.
  - cbn [forEach]. unfold bind at 1.
    assert (Hnext : onNext item st
                    = (tt, {| trace := (trace st ++ lineEvents item)%list;
                              completion := completion st |})).
    { unfold onNext, lineEvents, bind, logger_error, logger_info,
        outputChannel_append, emit.
      destruct (source item =? "stderr"); cbn; now rewrite <- app_assoc. }
    rewrite Hnext, IH. cbn [trace completion flat_map].
    now rewrite <- !app_assoc.
Qed.

Lemma subscribe_run (buildOrRun : BuildOrRun) (o : ObservableOutput)
    (t : list Event) :
  subscribe o onNext (onError buildOrRun) onComplete
    {| trace := t; completion := Some Pending |}
  = (tt, {| trace := (t ++ flat_map lineEvents (emitted o)
                        ++ closing (ending o))%list;
            completion := Some (settlement (ending o)) |}).
Proof.
  unfold subscribe, bind. rewrite forEach_onNext. cbn [trace completion].
  destruct (ending o) as [|err|]; cbn.
  - now rewrite app_nil_r.
  - destruct buildOrRun; cbn; now rewrite <- app_assoc.
  - now rewrite app_nil_r.
Qed.

Lemma checkAndInstallModule_run (services : Services) (folder : Uri)
    (st : State) :
  checkAndInstallModule services "beeware" folder st
  = (moduleReady services folder,
     {| trace := (trace st ++ checkTrace services folder)%list;
        completion := completion st |}).
Proof.
  unfold checkAndInstallModule, checkTrace, moduleReady, accepted, promptText,
    bind, logger_info, moduleInstaller_isInstalled, moduleInstaller_install,
    shell_showInformationMessage, emit, ret.
  cbn.
  destruct (isInstalled services "beeware" folder); cbn.
  - destruct (install services "beeware" folder); cbn;
      now rewrite <- !app_assoc.
  - destruct (strictNotEqual _ "Install"); cbn.
    + now rewrite <- !app_assoc.
    + destruct (install services "beeware" folder); cbn;
        now rewrite <- !app_assoc.
Qed.

Lemma handler_cmd (buildOrRun : BuildOrRun) :
  (if literal buildOrRun =? "build" then "build" else "run")
  = match buildOrRun with lit_build => "build" | lit_run => "run" end.
Proof. now destruct buildOrRun. Qed.

Lemma handler_wording (buildOrRun : BuildOrRun) (yes no : string) :
  (if truthy (literal buildOrRun) then yes else no) = yes.
Proof. now destruct buildOrRun. Qed.

(** The handler leaves exactly [handlerTrace], settles the completion
    promise as [handlerCompletion] says, and its own promise is fulfilled. *)
Lemma buildHandler_run (imports : Imports) (services : Services)
    (buildOrRun : BuildOrRun) (target : Target) :
  buildHandler imports services buildOrRun target initial
  = (Fulfilled,
     {| trace := handlerTrace imports services buildOrRun target;
        completion := handlerCompletion imports services buildOrRun target |}).
Proof.
  unfold buildHandler, handlerTrace, handlerCompletion, async.
  rewrite !handler_wording, handler_cmd.
  unfold bind at 1. unfold bind at 1.
  unfold logger_info at 1, emit at 1, initial. cbn [trace completion app].
  unfold bind at 1. unfold logger_info at 1, emit at 1.
  cbn [trace completion app].
  unfold bind at 1. unfold workspaceService_selectWorkspaceFolder at 1.
  unfold bind at 1, emit at 1, ret at 1. cbn [trace completion app].
  destruct (selectWorkspaceFolder services) as [workspaceFolder|];
    [|reflexivity].
  unfold bind at 1. rewrite checkAndInstallModule_run.
  cbn [trace completion].
  destruct (moduleReady services (uri workspaceFolder)); cbn [negb].
  - cbv [bind processExecutionFactory_create configurationService_getSettings
         outputChannel_show shell_withProgress new_Promise
         executionService_execObservable emit ret trace completion].
    rewrite subscribe_run.
    unfold stageTrace, spawnOutput, spawnInfo, spawnArgs, spawnOptions.
    rewrite <- !app_assoc. reflexivity.
  - cbn. now rewrite app_nil_r.
Qed.

Lemma traceOf_buildHandler (imports : Imports) (services : Services)
    (buildOrRun : BuildOrRun) (target : Target) :
  traceOf (buildHandler imports services buildOrRun target)
  = handlerTrace imports services buildOrRun target.
Proof. unfold traceOf. now rewrite buildHandler_run. Qed.

Lemma promiseOf_buildHandler (imports : Imports) (services : Services)
    (buildOrRun : BuildOrRun) (target : Target) :
  promiseOf (buildHandler imports services buildOrRun target)
  = handlerCompletion imports services buildOrRun target.
Proof. unfold promiseOf. now rewrite buildHandler_run. Qed.

Lemma returned_buildHandler (imports : Imports) (services : Services)
    (buildOrRun : BuildOrRun) (target : Target) :
  returned (buildHandler imports services buildOrRun target) = Fulfilled.
Proof. unfold returned. now rewrite buildHandler_run. Qed.

(** [build] and [run] add nothing to what the handler does, and their own
    promise does not look at the handler's. *)
Lemma entryPoint_run (imports : Imports) (services : Services)
    (buildOrRun : BuildOrRun) (target : Target) :
  entryPoint imports services buildOrRun target initial
  = (Fulfilled, snd (buildHandler imports services buildOrRun target initial)).
Proof.
  destruct buildOrRun; unfold entryPoint, build, run, async, bind, ret;
    now rewrite buildHandler_run.
Qed.

(** *** Observations of the pieces of the trace *)

Lemma pick_flat_map {A B} (f : Event -> option A) (g : B -> list Event)
    (xs : list B) :
  pick f (flat_map g xs) = flat_map (fun x => pick f (g x)) xs.
Proof.
  induction xs as [|x xs IH]; simpl.
  - reflexivity.
  - now rewrite pick_app, IH.
Qed.

Lemma flat_map_nil {A B} (xs : list A) :
  flat_map (fun _ : A => @nil B) xs = [].
Proof. induction xs; simpl; auto. Qed.

Lemma flat_map_singleton {A B} (f : A -> B) (xs : list A) :
  flat_map (fun x => [f x]) xs = map f xs.
Proof. induction xs as [|x xs IH]; simpl; [|rewrite IH]; reflexivity. Qed.

Lemma loggerEntries_lines (items : list Output) :
  loggerEntries (flat_map lineEvents items) = map lineEntry items.
Proof.
  unfold loggerEntries. rewrite pick_flat_map, <- flat_map_singleton.
  apply flat_map_ext. intros item. unfold lineEvents, lineEntry.
  now destruct (source item =? "stderr").
Qed.

Lemma deliveries_lines (items : list Output) :
  deliveries (flat_map lineEvents items)
  = flat_map (fun item => [(ToLogger, out item); (ToDisplay, out item)]) items.
Proof.
  unfold deliveries. rewrite pick_flat_map.
  apply flat_map_ext. intros item. unfold lineEvents.
  now destruct (source item =? "stderr").
Qed.

Lemma pick_lines_nil {A} (f : Event -> option A) (items : list Output) :
  (forall item, pick f (lineEvents item) = []) ->
  pick f (flat_map lineEvents items) = [].
Proof.
  intros Hnone. rewrite pick_flat_map.
  transitivity (flat_map (fun _ : Output => @nil A) items).
  - apply flat_map_ext. exact Hnone.
  - apply flat_map_nil.
Qed.

Ltac lines_nil :=
  apply pick_lines_nil; intros item; unfold lineEvents;
  now destruct (source item =? "stderr").

Lemma spawns_lines (items : list Output) :
  spawns (flat_map lineEvents items) = [].
Proof. lines_nil. Qed.

Lemma installs_lines (items : list Output) :
  installs (flat_map lineEvents items) = [].
Proof. lines_nil. Qed.

Lemma settingsReads_lines (items : list Output) :
  settingsReads (flat_map lineEvents items) = [].
Proof. lines_nil. Qed.

Lemma prompts_lines (items : list Output) :
  prompts (flat_map lineEvents items) = [].
Proof. lines_nil. Qed.

(** An event left by the stream is a logger call or a display append. *)
Lemma in_lines (e : Event) (items : list Output) :
  In e (flat_map lineEvents items) ->
  exists item, In item items /\
    (e = LoggerError (out item) None \/ e = LoggerInfo (out item)
     \/ e = OutputChannelAppend (out item)).
Proof.
  intros H. apply in_flat_map in H as (item & Hitem & He).
  exists item. split; [assumption|].
  unfold lineEvents in He.
  destruct (source item =? "stderr"); simpl in He; intuition auto.
Qed.

(** *** The cases of [handlerTrace] *)

Section Cases.

Variable imports : Imports.
Variable services : Services.
Variable buildOrRun : BuildOrRun.
Variable target : Target.

Let T := handlerTrace imports services buildOrRun target.

Lemma handlerTrace_no_folder :
  selectWorkspaceFolder services = None ->
  T = [ LoggerInfo (EOL imports);
        LoggerInfo ("Build '" ++ target ++ "'");
        SelectWorkspaceFolder ].
Proof. intros Hsel. subst T. unfold handlerTrace. now rewrite Hsel. Qed.

Lemma handlerTrace_not_ready (workspaceFolder : WorkspaceFolder) :
  selectWorkspaceFolder services = Some workspaceFolder ->
  moduleReady services (uri workspaceFolder) = false ->
  T = ([ LoggerInfo (EOL imports);
         LoggerInfo ("Build '" ++ target ++ "'");
         SelectWorkspaceFolder ]
       ++ checkTrace services (uri workspaceFolder))%list.
Proof.
  intros Hsel Hready. subst T. unfold handlerTrace.
  now rewrite Hsel, Hready, app_nil_r.
Qed.

Lemma handlerTrace_ready (workspaceFolder : WorkspaceFolder) :
  selectWorkspaceFolder services = Some workspaceFolder ->
  moduleReady services (uri workspaceFolder) = true ->
  T = ([ LoggerInfo (EOL imports);
         LoggerInfo ("Build '" ++ target ++ "'");
         SelectWorkspaceFolder;
         LoggerInfo "Checking if module 'beeware' is installed.";
         IsInstalled "beeware" (uri workspaceFolder) ]
       ++ (if isInstalled services "beeware" (uri workspaceFolder) then []
           else [ShowInformationMessage promptText ["Install"; "Cancel"]])
       ++ [ Install "beeware" (uri workspaceFolder);
            LoggerInfo "Module 'beeware' is installed." ]
       ++ stageTrace imports services buildOrRun target (uri workspaceFolder))%list.
Proof.
  intros Hsel Hready. subst T. unfold handlerTrace, checkTrace.
  rewrite Hsel, Hready.
  unfold moduleReady in Hready. apply andb_prop in Hready as [Hacc Hinst].
  rewrite Hacc, Hinst. cbn [app]. now rewrite <- !app_assoc.
Qed.

Lemma checkTrace_no_stage (folder : Uri) (e : Event) :
  In e (checkTrace services folder) -> stageEvent e = false.
Proof.
  unfold checkTrace.
  destruct (isInstalled services "beeware" folder),
    (accepted services folder), (install services "beeware" folder);
    simpl; intros H; repeat (destruct H as [H|H]; [now subst e|]);
    contradiction.
Qed.

(** A stage event in the trace means that a folder was selected and the
    module check passed; the event then comes from [stageTrace]. *)
Lemma stage_reached (e : Event) :
  stageEvent e = true -> In e T ->
  exists workspaceFolder,
    selectWorkspaceFolder services = Some workspaceFolder
    /\ moduleReady services (uri workspaceFolder) = true
    /\ In e (stageTrace imports services buildOrRun target (uri workspaceFolder)).
Proof.
  intros He Hin. subst T. unfold handlerTrace in Hin.
  apply in_app_or in Hin as [Hin|Hin].
  - simpl in Hin.
    repeat (destruct Hin as [Hin|Hin]; [subst e; discriminate He|]).
    contradiction.
  - destruct (selectWorkspaceFolder services) as [workspaceFolder|];
      [|contradiction].
    exists workspaceFolder. apply in_app_or in Hin as [Hin|Hin].
    + apply checkTrace_no_stage in Hin. congruence.
    + destruct (moduleReady services (uri workspaceFolder));
        [auto|contradiction].
Qed.

Lemma stageTrace_stage (folder : Uri) (e : Event) :
  stageEvent e = true ->
  In e (stageTrace imports services buildOrRun target folder) ->
  e = CreateProcessService folder
  \/ e = ExecObservable {| resource := folder |}
           (command (spawnInfo imports services folder))
           (spawnArgs imports services buildOrRun target folder)
           (spawnOptions services folder).
Proof.
  intros He Hin. unfold stageTrace in Hin.
  apply in_app_or in Hin as [Hin|Hin].
  - simpl in Hin.
    destruct Hin as [Hin|Hin]; [now left|].
    repeat (destruct Hin as [Hin|Hin]; [subst e; discriminate He|]).
    destruct Hin as [Hin|Hin]; [now right|contradiction].
  - apply in_app_or in Hin as [Hin|Hin].
    + apply in_lines in Hin as (item & _ & [Hin|[Hin|Hin]]);
        subst e; discriminate He.
    + destruct (ending _); simpl in Hin; try contradiction.
      destruct Hin as [Hin|Hin]; [subst e; discriminate He|contradiction].
Qed.

(** The call of [execObservable] seen in the trace is the one of
    [stageTrace]. *)
Lemma spawn_reached (service : ProcessService) (file : string)
    (arguments : list string) (options : SpawnOptions) :
  In (ExecObservable service file arguments options) T ->
  exists workspaceFolder,
    selectWorkspaceFolder services = Some workspaceFolder
    /\ moduleReady services (uri workspaceFolder) = true
    /\ (service, file, arguments, options)
       = ({| resource := uri workspaceFolder |},
          command (spawnInfo imports services (uri workspaceFolder)),
          spawnArgs imports services buildOrRun target (uri workspaceFolder),
          spawnOptions services (uri workspaceFolder))
    /\ execObservable services service file arguments options
       = spawnOutput imports services buildOrRun target (uri workspaceFolder).
Proof.
  intros Hin. apply stage_reached in Hin as (workspaceFolder & Hsel & Hready & Hin);
    [|reflexivity].
  exists workspaceFolder. split; [assumption|]. split; [assumption|].
  apply stageTrace_stage in Hin; [|reflexivity].
  destruct Hin as [Hin|Hin]; [discriminate|].
  injection Hin as -> -> -> ->. split; reflexivity.
Qed.

(** Where an event of the trace comes from. *)
Lemma handlerTrace_in (e : Event) :
  In e T ->
  In e [ LoggerInfo (EOL imports);
         LoggerInfo ("Build '" ++ target ++ "'");
         SelectWorkspaceFolder ]
  \/ exists workspaceFolder,
       selectWorkspaceFolder services = Some workspaceFolder
       /\ (In e (checkTrace services (uri workspaceFolder))
           \/ moduleReady services (uri workspaceFolder) = true
              /\ In e (stageTrace imports services buildOrRun target
                         (uri workspaceFolder))).
Proof.
  intros Hin. subst T. unfold handlerTrace in Hin.
  apply in_app_or in Hin as [Hin|Hin]; [now left|right].
  destruct (selectWorkspaceFolder services) as [workspaceFolder|];
    [|contradiction].
  exists workspaceFolder. split; [reflexivity|].
  apply in_app_or in Hin as [Hin|Hin]; [now left|right].
  destruct (moduleReady services (uri workspaceFolder));
    [auto|contradiction].
Qed.

Lemma create_reached (folder : Uri) :
  In (CreateProcessService folder) T ->
  exists workspaceFolder,
    selectWorkspaceFolder services = Some workspaceFolder
    /\ moduleReady services (uri workspaceFolder) = true
    /\ uri workspaceFolder = folder.
Proof.
  intros Hin. apply stage_reached in Hin as (workspaceFolder & Hsel & Hready & Hin);
    [|reflexivity].
  exists workspaceFolder. repeat split; try assumption.
  apply stageTrace_stage in Hin; [|reflexivity].
  destruct Hin as [Hin|Hin]; [|discriminate].
  now injection Hin.
Qed.

End Cases.

Lemma spawns_app (t1 t2 : list Event) :
  spawns (t1 ++ t2) = (spawns t1 ++ spawns t2)%list.
Proof. apply pick_app. Qed.

Lemma spawns_check (services : Services) (folder : Uri) :
  spawns (checkTrace services folder) = [].
Proof.
  unfold checkTrace.
  now destruct (isInstalled services "beeware" folder),
    (accepted services folder), (install services "beeware" folder).
Qed.

Lemma installs_app (t1 t2 : list Event) :
  installs (t1 ++ t2) = (installs t1 ++ installs t2)%list.
Proof. apply pick_app. Qed.

Lemma settingsReads_app (t1 t2 : list Event) :
  settingsReads (t1 ++ t2) = (settingsReads t1 ++ settingsReads t2)%list.
Proof. apply pick_app. Qed.

Lemma loggerEntries_app (t1 t2 : list Event) :
  loggerEntries (t1 ++ t2) = (loggerEntries t1 ++ loggerEntries t2)%list.
Proof. apply pick_app. Qed.

Lemma deliveries_app (t1 t2 : list Event) :
  deliveries (t1 ++ t2) = (deliveries t1 ++ deliveries t2)%list.
Proof. apply pick_app. Qed.

Lemma prompts_app (t1 t2 : list Event) :
  prompts (t1 ++ t2) = (prompts t1 ++ prompts t2)%list.
Proof. apply pick_app. Qed.

Lemma strictNotEqual_other (result : option string) (s : string) :
  result <> Some s -> strictNotEqual result s = true.
Proof.
  destruct result as [answer|]; simpl; [|reflexivity].
  intros Hne. destruct (String.eqb_spec answer s); [congruence|reflexivity].
Qed.

(** *** What a run that reaches the subprocess stage leaves *)

Section Ready.

Variable imports : Imports.
Variable services : Services.
Variable buildOrRun : BuildOrRun.
Variable target : Target.
Variable workspaceFolder : WorkspaceFolder.

Hypothesis Hselected : selectWorkspaceFolder services = Some workspaceFolder.
Hypothesis Hready : moduleReady services (uri workspaceFolder) = true.

Let T := handlerTrace imports services buildOrRun target.
Let folder := uri workspaceFolder.
Let output := spawnOutput imports services buildOrRun target folder.

Lemma ready_spawns :
  spawns T = [ ({| resource := folder |},
                command (spawnInfo imports services folder),
                spawnArgs imports services buildOrRun target folder,
                spawnOptions services folder) ].
Proof.
  subst T. rewrite (handlerTrace_ready _ _ _ _ _ Hselected Hready).
  unfold stageTrace. rewrite !spawns_app, spawns_lines.
  destruct (isInstalled services "beeware" (uri workspaceFolder)),
    (ending (spawnOutput imports services buildOrRun target (uri workspaceFolder)));
    reflexivity.
Qed.

Lemma ready_settingsReads : settingsReads T = [folder; folder].
Proof.
  subst T. rewrite (handlerTrace_ready _ _ _ _ _ Hselected Hready).
  unfold stageTrace. rewrite !settingsReads_app, settingsReads_lines.
  destruct (isInstalled services "beeware" (uri workspaceFolder)),
    (ending (spawnOutput imports services buildOrRun target (uri workspaceFolder)));
    reflexivity.
Qed.

Lemma ready_installs : installs T = [("beeware", folder)].
Proof.
  subst T. rewrite (handlerTrace_ready _ _ _ _ _ Hselected Hready).
  unfold stageTrace. rewrite !installs_app, installs_lines.
  destruct (isInstalled services "beeware" (uri workspaceFolder)),
    (ending (spawnOutput imports services buildOrRun target (uri workspaceFolder)));
    reflexivity.
Qed.

Lemma ready_loggerEntries :
  loggerEntries T
  = ([ (SevInfo, EOL imports);
       (SevInfo, ("Build '" ++ target ++ "'")%string);
       (SevInfo, "Checking if module 'beeware' is installed.");
       (SevInfo, "Module 'beeware' is installed.") ]
     ++ map lineEntry (emitted output)
     ++ match ending output with
        | Errors _ => [(SevError, "Build failed")]
        | _ => []
        end)%list.
Proof.
  subst T output folder.
  rewrite (handlerTrace_ready _ _ _ _ _ Hselected Hready).
  unfold stageTrace. rewrite !loggerEntries_app, loggerEntries_lines.
  destruct (isInstalled services "beeware" (uri workspaceFolder)),
    (ending (spawnOutput imports services buildOrRun target (uri workspaceFolder)));
    reflexivity.
Qed.

Lemma ready_deliveries :
  deliveries T
  = ([ (ToLogger, EOL imports);
       (ToLogger, ("Build '" ++ target ++ "'")%string);
       (ToLogger, "Checking if module 'beeware' is installed.");
       (ToLogger, "Module 'beeware' is installed.") ]
     ++ flat_map (fun item => [(ToLogger, out item); (ToDisplay, out item)])
          (emitted output)
     ++ match ending output with
        | Errors _ => [(ToLogger, "Build failed")]
        | _ => []
        end)%list.
Proof.
  subst T output folder.
  rewrite (handlerTrace_ready _ _ _ _ _ Hselected Hready).
  unfold stageTrace. rewrite !deliveries_app, deliveries_lines.
  destruct (isInstalled services "beeware" (uri workspaceFolder)),
    (ending (spawnOutput imports services buildOrRun target (uri workspaceFolder)));
    reflexivity.
Qed.

Lemma ready_completion :
  handlerCompletion imports services buildOrRun target
  = Some (settlement (ending output)).
Proof.
  unfold handlerCompletion. now rewrite Hselected, Hready.
Qed.

End Ready.

(** ** The claims *)

Ltac in_trace := vm_compute; auto 30.

(** C1: an invocation that reaches the subprocess stage (the process service
    is created for [folder]) has a selected workspace folder with that uri,
    reads the settings of that folder (once for the interpreter path, once
    for the toolchain path) and calls [execObservable] exactly once, with
    the command of the execution info computed from the two paths and with
    its args followed by 'build' (build mode) or 'run' (run mode) and then
    the target. *)
Theorem C1_subprocess_command (imports : Imports) (services : Services)
    (buildOrRun : BuildOrRun) (target : Target) (folder : Uri) :
  In (CreateProcessService folder)
     (traceOf (buildHandler imports services buildOrRun target)) ->
  (exists workspaceFolder,
      selectWorkspaceFolder services = Some workspaceFolder
      /\ uri workspaceFolder = folder)
  /\ settingsReads (traceOf (buildHandler imports services buildOrRun target))
     = [folder; folder]
  /\ spawns (traceOf (buildHandler imports services buildOrRun target))
     = [ ({| resource := folder |},
          command (buildExecutionArgs imports
                     (pythonPath (getSettings services folder))
                     (beewarePath (getSettings services folder))),
          (args (buildExecutionArgs imports
                   (pythonPath (getSettings services folder))
                   (beewarePath (getSettings services folder)))
           ++ [match buildOrRun with
               | lit_build => "build"
               | lit_run => "run"
               end; target])%list,
          {| cwd := fsPath folder; token := progressToken services |}) ].
Proof.
  rewrite traceOf_buildHandler. intros Hin.
  apply create_reached in Hin as (workspaceFolder & Hsel & Hready & <-).
  split; [now exists workspaceFolder|]. split.
  - apply (ready_settingsReads _ _ _ _ _ Hsel Hready).
  - apply (ready_spawns _ _ _ _ _ Hsel Hready).
Qed.

Lemma C1_subprocess_command_witness :
  In (CreateProcessService (uri sampleFolder))
     (traceOf (buildHandler sampleImports (readyServices Completes)
                 lit_run "ios"))
  /\ spawns (traceOf (buildHandler sampleImports (readyServices Completes)
                        lit_run "ios"))
     = [ ({| resource := uri sampleFolder |}, "python3",
          ["-m"; "beeware"; "run"; "ios"],
          {| cwd := "/home/dev/app"; token := 7 |}) ].
Proof.
  assert (H : In (CreateProcessService (uri sampleFolder))
                (traceOf (buildHandler sampleImports (readyServices Completes)
                            lit_run "ios"))) by in_trace.
  split; [exact H|].
  exact (proj2 (proj2 (C1_subprocess_command sampleImports
                         (readyServices Completes) lit_run "ios"
                         (uri sampleFolder) H))).
Defined.

(** C2: when the folder selection yields no folder the handler stops after
    the two header lines and the selection: [execObservable] is not called,
    nothing is logged at error severity, no completion promise is created
    and the handler's own promise is fulfilled. *)
Theorem C2_no_folder_no_subprocess (imports : Imports) (services : Services)
    (buildOrRun : BuildOrRun) (target : Target) :
  selectWorkspaceFolder services = None ->
  traceOf (buildHandler imports services buildOrRun target)
  = [ LoggerInfo (EOL imports);
      LoggerInfo ("Build '" ++ target ++ "'");
      SelectWorkspaceFolder ]
  /\ spawns (traceOf (buildHandler imports services buildOrRun target)) = []
  /\ (forall message data,
        ~ In (LoggerError message data)
             (traceOf (buildHandler imports services buildOrRun target)))
  /\ promiseOf (buildHandler imports services buildOrRun target) = None
  /\ returned (buildHandler imports services buildOrRun target) = Fulfilled.
Proof.
  intros Hsel.
  rewrite traceOf_buildHandler, promiseOf_buildHandler, returned_buildHandler.
  rewrite (handlerTrace_no_folder _ _ _ _ Hsel).
  unfold handlerCompletion. rewrite Hsel.
  repeat split.
  intros message data Hin. simpl in Hin.
  repeat (destruct Hin as [Hin|Hin]; [discriminate Hin|]). contradiction.
Qed.

Lemma C2_no_folder_no_subprocess_witness :
  selectWorkspaceFolder noFolderServices = None
  /\ spawns (traceOf (buildHandler sampleImports noFolderServices
                        lit_build "android")) = []
  /\ returned (buildHandler sampleImports noFolderServices
                 lit_build "android") = Fulfilled.
Proof.
  split; [reflexivity|].
  destruct (C2_no_folder_no_subprocess sampleImports noFolderServices
              lit_build "android" eq_refl) as (_ & Hspawns & _ & _ & Hret).
  split; assumption.
Defined.

(** C3: when a folder is selected, the installer reports 'beeware' as not
    installed and the answer to the prompt is anything but 'Install'
    (another button, or the prompt dismissed), [execObservable] is not
    called; neither is [install], and the handler's promise is fulfilled. *)
Theorem C3_declined_no_subprocess (imports : Imports) (services : Services)
    (buildOrRun : BuildOrRun) (target : Target)
    (workspaceFolder : WorkspaceFolder) :
  selectWorkspaceFolder services = Some workspaceFolder ->
  isInstalled services "beeware" (uri workspaceFolder) = false ->
  showInformationMessage services
    "Module 'beeware' not installed, would you like to install it?"
    ["Install"; "Cancel"] <> Some "Install" ->
  spawns (traceOf (buildHandler imports services buildOrRun target)) = []
  /\ installs (traceOf (buildHandler imports services buildOrRun target)) = []
  /\ prompts (traceOf (buildHandler imports services buildOrRun target))
     = [ ("Module 'beeware' not installed, would you like to install it?",
          ["Install"; "Cancel"]) ]
  /\ promiseOf (buildHandler imports services buildOrRun target) = None
  /\ returned (buildHandler imports services buildOrRun target) = Fulfilled.
Proof.
  intros Hsel Hmissing Hanswer.
  apply strictNotEqual_other in Hanswer.
  assert (Hacc : accepted services (uri workspaceFolder) = false).
  { unfold accepted, promptText. now rewrite Hmissing, Hanswer. }
  assert (Hready : moduleReady services (uri workspaceFolder) = false).
  { unfold moduleReady. now rewrite Hacc. }
  rewrite traceOf_buildHandler, promiseOf_buildHandler, returned_buildHandler.
  rewrite (handlerTrace_not_ready _ _ _ _ _ Hsel Hready).
  unfold handlerCompletion, checkTrace. rewrite Hsel, Hready, Hmissing, Hacc.
  repeat split.
Qed.

Lemma C3_declined_no_subprocess_witness :
  selectWorkspaceFolder declinedServices = Some sampleFolder
  /\ isInstalled declinedServices "beeware" (uri sampleFolder) = false
  /\ showInformationMessage declinedServices
       "Module 'beeware' not installed, would you like to install it?"
       ["Install"; "Cancel"] <> Some "Install"
  /\ spawns (traceOf (buildHandler sampleImports declinedServices
                        lit_run "ios")) = [].
Proof.
  assert (Hanswer : showInformationMessage declinedServices
            "Module 'beeware' not installed, would you like to install it?"
            ["Install"; "Cancel"] <> Some "Install") by (simpl; discriminate).
  split; [reflexivity|]. split; [reflexivity|]. split; [exact Hanswer|].
  exact (proj1 (C3_declined_no_subprocess sampleImports declinedServices
                  lit_run "ios" sampleFolder eq_refl eq_refl Hanswer)).
Defined.

(** C4: when the subprocess is run and its output stream completes without
    an error, the completion promise handed to the progress shell is
    fulfilled, and the lines of the log sink are the four header lines
    followed by the text of every emitted item, in emission order. *)
Theorem C4_success_resolves_and_logs (imports : Imports) (services : Services)
    (buildOrRun : BuildOrRun) (target : Target)
    (service : ProcessService) (file : string) (arguments : list string)
    (options : SpawnOptions) :
  In (ExecObservable service file arguments options)
     (traceOf (buildHandler imports services buildOrRun target)) ->
  ending (execObservable services service file arguments options) = Completes ->
  promiseOf (buildHandler imports services buildOrRun target) = Some Fulfilled
  /\ loggerLines (traceOf (buildHandler imports services buildOrRun target))
     = ([ EOL imports;
          ("Build '" ++ target ++ "'")%string;
          "Checking if module 'beeware' is installed.";
          "Module 'beeware' is installed." ]
        ++ map out (emitted (execObservable services service file arguments
                               options)))%list.
Proof.
  rewrite traceOf_buildHandler, promiseOf_buildHandler. intros Hin Hend.
  apply spawn_reached in Hin as (workspaceFolder & Hsel & Hready & _ & Hout).
  rewrite Hout in *. split.
  - rewrite (ready_completion _ _ _ _ _ Hsel Hready), Hend. reflexivity.
  - unfold loggerLines.
    rewrite (ready_loggerEntries _ _ _ _ _ Hsel Hready), Hend.
    rewrite app_nil_r, map_app, map_map. reflexivity.
Qed.

Lemma C4_success_resolves_and_logs_witness :
  In (ExecObservable {| resource := uri sampleFolder |} "python3"
        ["-m"; "beeware"; "build"; "ios"]
        {| cwd := "/home/dev/app"; token := 7 |})
     (traceOf (buildHandler sampleImports (readyServices Completes)
                 lit_build "ios"))
  /\ ending (sampleOutput Completes) = Completes
  /\ promiseOf (buildHandler sampleImports (readyServices Completes)
                  lit_build "ios") = Some Fulfilled
  /\ loggerLines (traceOf (buildHandler sampleImports (readyServices Completes)
                             lit_build "ios"))
     = [ posixEOL; "Build 'ios'";
         "Checking if module 'beeware' is installed.";
         "Module 'beeware' is installed.";
         "compiling"; "warning: unused"; "done" ].
Proof.
  assert (H : In (ExecObservable {| resource := uri sampleFolder |} "python3"
                    ["-m"; "beeware"; "build"; "ios"]
                    {| cwd := "/home/dev/app"; token := 7 |})
                (traceOf (buildHandler sampleImports (readyServices Completes)
                            lit_build "ios"))) by in_trace.
  split; [exact H|]. split; [reflexivity|].
  exact (C4_success_resolves_and_logs sampleImports (readyServices Completes)
           lit_build "ios" _ _ _ _ H eq_refl).
Defined.

(** C5: when the subprocess is run and its output stream signals an error,
    the completion promise handed to the progress shell is rejected with
    that error, and the log sink's last entry is an error-severity entry,
    the failure message, logged together with the error. *)
Theorem C5_error_rejects_and_logs (imports : Imports) (services : Services)
    (buildOrRun : BuildOrRun) (target : Target)
    (service : ProcessService) (file : string) (arguments : list string)
    (options : SpawnOptions) (error : string) :
  In (ExecObservable service file arguments options)
     (traceOf (buildHandler imports services buildOrRun target)) ->
  ending (execObservable services service file arguments options)
  = Errors error ->
  promiseOf (buildHandler imports services buildOrRun target)
  = Some (Rejected error)
  /\ In (LoggerError "Build failed" (Some error))
        (traceOf (buildHandler imports services buildOrRun target))
  /\ exists earlier,
       loggerEntries (traceOf (buildHandler imports services buildOrRun target))
       = (earlier ++ [(SevError, "Build failed")])%list.
Proof.
  rewrite traceOf_buildHandler, promiseOf_buildHandler. intros Hin Hend.
  apply spawn_reached in Hin as (workspaceFolder & Hsel & Hready & _ & Hout).
  rewrite Hout in *. split; [|split].
  - rewrite (ready_completion _ _ _ _ _ Hsel Hready), Hend. reflexivity.
  - rewrite (handlerTrace_ready _ _ _ _ _ Hsel Hready).
    unfold stageTrace. rewrite Hend.
    repeat (apply in_or_app; right). now left.
  - rewrite (ready_loggerEntries _ _ _ _ _ Hsel Hready), Hend.
    eexists. rewrite app_assoc. reflexivity.
Qed.

Lemma C5_error_rejects_and_logs_witness :
  In (ExecObservable {| resource := uri sampleFolder |} "python3"
        ["-m"; "beeware"; "build"; "ios"]
        {| cwd := "/home/dev/app"; token := 7 |})
     (traceOf (buildHandler sampleImports (readyServices (Errors "exit 1"))
                 lit_build "ios"))
  /\ ending (sampleOutput (Errors "exit 1")) = Errors "exit 1"
  /\ promiseOf (buildHandler sampleImports (readyServices (Errors "exit 1"))
                  lit_build "ios") = Some (Rejected "exit 1").
Proof.
  assert (H : In (ExecObservable {| resource := uri sampleFolder |} "python3"
                    ["-m"; "beeware"; "build"; "ios"]
                    {| cwd := "/home/dev/app"; token := 7 |})
                (traceOf (buildHandler sampleImports
                            (readyServices (Errors "exit 1")) lit_build "ios")))
    by in_trace.
  split; [exact H|]. split; [reflexivity|].
  exact (proj1 (C5_error_rejects_and_logs sampleImports
                  (readyServices (Errors "exit 1")) lit_build "ios"
                  _ _ _ _ "exit 1" H eq_refl)).
Defined.

(** C6: when the subprocess is run, the entries of the log sink are the four
    informational header entries, then one entry per emitted item, in order,
    at error severity when the item's source is 'stderr' and at
    informational severity otherwise, then the failure entry if the stream
    ended with an error. *)
Theorem C6_severity_by_source (imports : Imports) (services : Services)
    (buildOrRun : BuildOrRun) (target : Target)
    (service : ProcessService) (file : string) (arguments : list string)
    (options : SpawnOptions) :
  In (ExecObservable service file arguments options)
     (traceOf (buildHandler imports services buildOrRun target)) ->
  loggerEntries (traceOf (buildHandler imports services buildOrRun target))
  = ([ (SevInfo, EOL imports);
       (SevInfo, ("Build '" ++ target ++ "'")%string);
       (SevInfo, "Checking if module 'beeware' is installed.");
       (SevInfo, "Module 'beeware' is installed.") ]
     ++ map (fun item =>
               (if source item =? "stderr" then SevError else SevInfo,
                out item))
          (emitted (execObservable services service file arguments options))
     ++ match ending (execObservable services service file arguments options)
        with
        | Errors _ => [(SevError, "Build failed")]
        | _ => []
        end)%list.
Proof.
  rewrite traceOf_buildHandler. intros Hin.
  apply spawn_reached in Hin as (workspaceFolder & Hsel & Hready & _ & Hout).
  rewrite Hout.
  apply (ready_loggerEntries _ _ _ _ _ Hsel Hready).
Qed.

Lemma C6_severity_by_source_witness :
  In (ExecObservable {| resource := uri sampleFolder |} "python3"
        ["-m"; "beeware"; "run"; "ios"]
        {| cwd := "/home/dev/app"; token := 7 |})
     (traceOf (buildHandler sampleImports (readyServices NeverEnds)
                 lit_run "ios"))
  /\ loggerEntries (traceOf (buildHandler sampleImports (readyServices NeverEnds)
                               lit_run "ios"))
     = [ (SevInfo, posixEOL); (SevInfo, "Build 'ios'");
         (SevInfo, "Checking if module 'beeware' is installed.");
         (SevInfo, "Module 'beeware' is installed.");
         (SevInfo, "compiling"); (SevError, "warning: unused");
         (SevInfo, "done") ].
Proof.
  assert (H : In (ExecObservable {| resource := uri sampleFolder |} "python3"
                    ["-m"; "beeware"; "run"; "ios"]
                    {| cwd := "/home/dev/app"; token := 7 |})
                (traceOf (buildHandler sampleImports (readyServices NeverEnds)
                            lit_run "ios"))) by in_trace.
  split; [exact H|].
  exact (C6_severity_by_source sampleImports (readyServices NeverEnds)
           lit_run "ios" _ _ _ _ H).
Defined.

(** C8: when the subprocess is run, every emitted item is sent to the logger
    and then appended to the output channel, whatever its source: the texts
    sent to the two sinks are the four header lines (logger only), then for
    each item, in order, its text to the logger and its text to the display,
    then the failure message (logger only) if the stream ended with an
    error. *)
Theorem C8_logger_and_display (imports : Imports) (services : Services)
    (buildOrRun : BuildOrRun) (target : Target)
    (service : ProcessService) (file : string) (arguments : list string)
    (options : SpawnOptions) :
  In (ExecObservable service file arguments options)
     (traceOf (buildHandler imports services buildOrRun target)) ->
  deliveries (traceOf (buildHandler imports services buildOrRun target))
  = ([ (ToLogger, EOL imports);
       (ToLogger, ("Build '" ++ target ++ "'")%string);
       (ToLogger, "Checking if module 'beeware' is installed.");
       (ToLogger, "Module 'beeware' is installed.") ]
     ++ flat_map (fun item => [(ToLogger, out item); (ToDisplay, out item)])
          (emitted (execObservable services service file arguments options))
     ++ match ending (execObservable services service file arguments options)
        with
        | Errors _ => [(ToLogger, "Build failed")]
        | _ => []
        end)%list.
Proof.
  rewrite traceOf_buildHandler. intros Hin.
  apply spawn_reached in Hin as (workspaceFolder & Hsel & Hready & _ & Hout).
  rewrite Hout.
  apply (ready_deliveries _ _ _ _ _ Hsel Hready).
Qed.

Lemma C8_logger_and_display_witness :
  In (ExecObservable {| resource := uri sampleFolder |} "python3"
        ["-m"; "beeware"; "build"; "ios"]
        {| cwd := "/home/dev/app"; token := 7 |})
     (traceOf (buildHandler sampleImports (readyServices Completes)
                 lit_build "ios"))
  /\ deliveries (traceOf (buildHandler sampleImports (readyServices Completes)
                            lit_build "ios"))
     = [ (ToLogger, posixEOL); (ToLogger, "Build 'ios'");
         (ToLogger, "Checking if module 'beeware' is installed.");
         (ToLogger, "Module 'beeware' is installed.");
         (ToLogger, "compiling"); (ToDisplay, "compiling");
         (ToLogger, "warning: unused"); (ToDisplay, "warning: unused");
         (ToLogger, "done"); (ToDisplay, "done") ].
Proof.
  assert (H : In (ExecObservable {| resource := uri sampleFolder |} "python3"
                    ["-m"; "beeware"; "build"; "ios"]
                    {| cwd := "/home/dev/app"; token := 7 |})
                (traceOf (buildHandler sampleImports (readyServices Completes)
                            lit_build "ios"))) by in_trace.
  split; [exact H|].
  exact (C8_logger_and_display sampleImports (readyServices Completes)
           lit_build "ios" _ _ _ _ H).
Defined.

(** *** The promise of the public operations *)

Lemma traceOf_entryPoint (imports : Imports) (services : Services)
    (buildOrRun : BuildOrRun) (target : Target) :
  traceOf (entryPoint imports services buildOrRun target)
  = handlerTrace imports services buildOrRun target.
Proof. unfold traceOf. now rewrite entryPoint_run, buildHandler_run. Qed.

Lemma promiseOf_entryPoint (imports : Imports) (services : Services)
    (buildOrRun : BuildOrRun) (target : Target) :
  promiseOf (entryPoint imports services buildOrRun target)
  = handlerCompletion imports services buildOrRun target.
Proof. unfold promiseOf. now rewrite entryPoint_run, buildHandler_run. Qed.

Lemma returned_entryPoint (imports : Imports) (services : Services)
    (buildOrRun : BuildOrRun) (target : Target) :
  returned (entryPoint imports services buildOrRun target) = Fulfilled.
Proof. unfold returned. now rewrite entryPoint_run. Qed.

(** C7, as stated, fails: here the subprocess is run, its stream ends with
    the error "exit 1", and the promise returned by [build] is fulfilled,
    not rejected. *)
Lemma C7_build_promise_counterexample :
  In (ExecObservable {| resource := uri sampleFolder |} "python3"
        ["-m"; "beeware"; "build"; "ios"]
        {| cwd := "/home/dev/app"; token := 7 |})
     (traceOf (build sampleImports (readyServices (Errors "exit 1")) "ios"))
  /\ ending (execObservable (readyServices (Errors "exit 1"))
               {| resource := uri sampleFolder |} "python3"
               ["-m"; "beeware"; "build"; "ios"]
               {| cwd := "/home/dev/app"; token := 7 |}) = Errors "exit 1"
  /\ returned (build sampleImports (readyServices (Errors "exit 1")) "ios")
     = Fulfilled
  /\ returned (build sampleImports (readyServices (Errors "exit 1")) "ios")
     <> Rejected "exit 1".
Proof.
  split; [in_trace|]. split; [reflexivity|]. split; [reflexivity|].
  vm_compute. discriminate.
Qed.

(** C7, amended: when the subprocess run by [build] or [run] ends with an
    error, the failure reaches the completion promise handed to the progress
    shell, which is rejected with that error; the promise returned by
    [build] or [run] itself is fulfilled (neither operation waits for the
    handler, nor the handler for the progress shell); and [execObservable]
    is called exactly once in the whole invocation. *)
Theorem C7_failure_rejects_completion_only (imports : Imports)
    (services : Services) (buildOrRun : BuildOrRun) (target : Target)
    (service : ProcessService) (file : string) (arguments : list string)
    (options : SpawnOptions) (error : string) :
  In (ExecObservable service file arguments options)
     (traceOf (entryPoint imports services buildOrRun target)) ->
  ending (execObservable services service file arguments options)
  = Errors error ->
  promiseOf (entryPoint imports services buildOrRun target)
  = Some (Rejected error)
  /\ returned (entryPoint imports services buildOrRun target) = Fulfilled
  /\ spawns (traceOf (entryPoint imports services buildOrRun target))
     = [(service, file, arguments, options)].
Proof.
  rewrite traceOf_entryPoint, promiseOf_entryPoint, returned_entryPoint.
  intros Hin Hend.
  apply spawn_reached in Hin as (workspaceFolder & Hsel & Hready & Hcall & Hout).
  rewrite Hout in Hend. split; [|split].
  - rewrite (ready_completion _ _ _ _ _ Hsel Hready), Hend. reflexivity.
  - reflexivity.
  - rewrite Hcall. apply (ready_spawns _ _ _ _ _ Hsel Hready).
Qed.

Lemma C7_failure_rejects_completion_only_witness :
  In (ExecObservable {| resource := uri sampleFolder |} "python3"
        ["-m"; "beeware"; "run"; "ios"]
        {| cwd := "/home/dev/app"; token := 7 |})
     (traceOf (entryPoint sampleImports (readyServices (Errors "exit 1"))
                 lit_run "ios"))
  /\ ending (sampleOutput (Errors "exit 1")) = Errors "exit 1"
  /\ promiseOf (run sampleImports (readyServices (Errors "exit 1")) "ios")
     = Some (Rejected "exit 1")
  /\ returned (run sampleImports (readyServices (Errors "exit 1")) "ios")
     = Fulfilled.
Proof.
  assert (H : In (ExecObservable {| resource := uri sampleFolder |} "python3"
                    ["-m"; "beeware"; "run"; "ios"]
                    {| cwd := "/home/dev/app"; token := 7 |})
                (traceOf (entryPoint sampleImports
                            (readyServices (Errors "exit 1")) lit_run "ios")))
    by in_trace.
  split; [exact H|]. split; [reflexivity|].
  destruct (C7_failure_rejects_completion_only sampleImports
              (readyServices (Errors "exit 1")) lit_run "ios"
              _ _ _ _ "exit 1" H eq_refl) as (Hpromise & Hret & _).
  split; [exact Hpromise|exact Hret].
Defined.

(** *** Wording *)

Lemma stageTrace_in (imports : Imports) (services : Services)
    (buildOrRun : BuildOrRun) (target : Target) (folder : Uri) (e : Event) :
  In e (stageTrace imports services buildOrRun target folder) ->
  In e [ CreateProcessService folder;
         GetSettings folder;
         GetSettings folder;
         OutputChannelShow;
         WithProgress {| location := Notification;
                         title := "Building " ++ ApplicationName imports
                                  ++ " on " ++ target;
                         cancellable := true |};
         ExecObservable {| resource := folder |}
           (command (spawnInfo imports services folder))
           (spawnArgs imports services buildOrRun target folder)
           (spawnOptions services folder) ]
  \/ (exists item,
        e = LoggerError (out item) None \/ e = LoggerInfo (out item)
        \/ e = OutputChannelAppend (out item))
  \/ (exists error, e = LoggerError "Build failed" (Some error)).
Proof.
  unfold stageTrace. intros Hin.
  apply in_app_or in Hin as [Hin|Hin]; [now left|right].
  apply in_app_or in Hin as [Hin|Hin].
  - left. apply in_lines in Hin as (item & _ & Hin). now exists item.
  - right. destruct (ending _) as [|error|]; simpl in Hin; try contradiction.
    destruct Hin as [Hin|Hin]; [|contradiction]. now exists error.
Qed.

Ltac in_cases H :=
  simpl in H;
  repeat (destruct H as [H|H]; [try discriminate H|]);
  try contradiction.

Lemma checkTrace_plain (services : Services) (folder : Uri) (e : Event) :
  In e (checkTrace services folder) ->
  (forall options, e <> WithProgress options)
  /\ (forall message data, e <> LoggerError message data).
Proof.
  unfold checkTrace.
  destruct (isInstalled services "beeware" folder),
    (accepted services folder), (install services "beeware" folder);
    intros Hin; split; intros; intros ->; in_cases Hin.
Qed.

(** C9: in every invocation, run mode included, the build-flavoured wording
    is what is produced.  The second log entry is the header
    "Build '<target>'".  Each subprocess call comes with one progress
    notification, and its title is "Building <ApplicationName> on <target>".
    The failure entries of the log (error entries logged together with an
    error) are exactly one "Build failed" entry, carrying the error, for
    each subprocess call whose stream ended with an error.  So whenever the
    subprocess is started the "Building ..." notification is in the trace,
    and whenever its stream errors the "Build failed" entry is.  The
    run-flavoured header, title and failure message never occur in these
    places. *)
Theorem C9_build_wording_in_every_mode (imports : Imports)
    (services : Services) (buildOrRun : BuildOrRun) (target : Target) :
  nth_error (traceOf (buildHandler imports services buildOrRun target)) 1
  = Some (LoggerInfo ("Build '" ++ target ++ "'"))
  /\ progressStarts (traceOf (buildHandler imports services buildOrRun target))
     = map (fun _ =>
              {| location := Notification;
                 title := "Building " ++ ApplicationName imports
                          ++ " on " ++ target;
                 cancellable := true |})
         (spawns (traceOf (buildHandler imports services buildOrRun target)))
  /\ failures (traceOf (buildHandler imports services buildOrRun target))
     = flat_map (fun call =>
                   match call with
                   | (service, file, arguments, options) =>
                     match ending (execObservable services service file
                                     arguments options) with
                     | Errors error => [("Build failed", error)]
                     | _ => []
                     end
                   end)
         (spawns (traceOf (buildHandler imports services buildOrRun target)))
  /\ (forall service file arguments options,
        In (ExecObservable service file arguments options)
           (traceOf (buildHandler imports services buildOrRun target)) ->
        In (WithProgress
              {| location := Notification;
                 title := "Building " ++ ApplicationName imports
                          ++ " on " ++ target;
                 cancellable := true |})
           (traceOf (buildHandler imports services buildOrRun target))
        /\ (forall error,
              ending (execObservable services service file arguments options)
              = Errors error ->
              In (LoggerError "Build failed" (Some error))
                 (traceOf (buildHandler imports services buildOrRun target))))
  /\ (forall options,
        In (WithProgress options)
           (traceOf (buildHandler imports services buildOrRun target)) ->
        title options
        = "Building " ++ ApplicationName imports ++ " on " ++ target)
  /\ (forall message error,
        In (LoggerError message (Some error))
           (traceOf (buildHandler imports services buildOrRun target)) ->
        message = "Build failed")
  /\ nth_error (traceOf (buildHandler imports services buildOrRun target)) 1
     <> Some (LoggerInfo ("Run '" ++ target ++ "'"))
  /\ (forall options,
        In (WithProgress options)
           (traceOf (buildHandler imports services buildOrRun target)) ->
        title options
        <> "Running " ++ ApplicationName imports ++ " on " ++ target)
  /\ (forall error,
        ~ In (LoggerError "Run failed" (Some error))
             (traceOf (buildHandler imports services buildOrRun target))).
Proof.
  rewrite traceOf_buildHandler.
  assert (Hheader :
    nth_error (handlerTrace imports services buildOrRun target) 1
    = Some (LoggerInfo ("Build '" ++ target ++ "'"))) by reflexivity.
  assert (Hstarts :
    progressStarts (handlerTrace imports services buildOrRun target)
    = map (fun _ =>
             {| location := Notification;
                title := "Building " ++ ApplicationName imports
                         ++ " on " ++ target;
                cancellable := true |})
        (spawns (handlerTrace imports services buildOrRun target))).
  { destruct (selectWorkspaceFolder services) as [workspaceFolder|] eqn:Hsel;
      [destruct (moduleReady services (uri workspaceFolder)) eqn:Hready|].
    - rewrite (ready_spawns _ _ _ _ _ Hsel Hready).
      rewrite (handlerTrace_ready _ _ _ _ _ Hsel Hready).
      unfold stageTrace, progressStarts. rewrite !pick_app.
      rewrite pick_lines_nil
        by (intros item; unfold lineEvents;
            now destruct (source item =? "stderr")).
      now destruct (isInstalled services "beeware" (uri workspaceFolder)),
        (ending (spawnOutput imports services buildOrRun target
                   (uri workspaceFolder))).
    - rewrite (handlerTrace_not_ready _ _ _ _ _ Hsel Hready).
      rewrite spawns_app, spawns_check. unfold checkTrace.
      now destruct (isInstalled services "beeware" (uri workspaceFolder)),
        (accepted services (uri workspaceFolder)),
        (install services "beeware" (uri workspaceFolder)).
    - now rewrite (handlerTrace_no_folder _ _ _ _ Hsel). }
  assert (Hfailures :
    failures (handlerTrace imports services buildOrRun target)
    = flat_map (fun call =>
                  match call with
                  | (service, file, arguments, options) =>
                    match ending (execObservable services service file
                                    arguments options) with
                    | Errors error => [("Build failed", error)]
                    | _ => []
                    end
                  end)
        (spawns (handlerTrace imports services buildOrRun target))).
  { destruct (selectWorkspaceFolder services) as [workspaceFolder|] eqn:Hsel;
      [destruct (moduleReady services (uri workspaceFolder)) eqn:Hready|].
    - rewrite (ready_spawns _ _ _ _ _ Hsel Hready).
      rewrite (handlerTrace_ready _ _ _ _ _ Hsel Hready).
      unfold stageTrace, failures. rewrite !pick_app.
      rewrite pick_lines_nil
        by (intros item; unfold lineEvents;
            now destruct (source item =? "stderr")).
      unfold spawnOutput. cbn [flat_map].
      now destruct (isInstalled services "beeware" (uri workspaceFolder)),
        (ending (execObservable services {| resource := uri workspaceFolder |}
                   (command (spawnInfo imports services (uri workspaceFolder)))
                   (spawnArgs imports services buildOrRun target
                      (uri workspaceFolder))
                   (spawnOptions services (uri workspaceFolder)))).
    - rewrite (handlerTrace_not_ready _ _ _ _ _ Hsel Hready).
      rewrite spawns_app, spawns_check. unfold checkTrace.
      now destruct (isInstalled services "beeware" (uri workspaceFolder)),
        (accepted services (uri workspaceFolder)),
        (install services "beeware" (uri workspaceFolder)).
    - now rewrite (handlerTrace_no_folder _ _ _ _ Hsel). }
  assert (Hproduced : forall service file arguments options,
    In (ExecObservable service file arguments options)
       (handlerTrace imports services buildOrRun target) ->
    In (WithProgress
          {| location := Notification;
             title := "Building " ++ ApplicationName imports
                      ++ " on " ++ target;
             cancellable := true |})
       (handlerTrace imports services buildOrRun target)
    /\ (forall error,
          ending (execObservable services service file arguments options)
          = Errors error ->
          In (LoggerError "Build failed" (Some error))
             (handlerTrace imports services buildOrRun target))).
  { intros service file arguments options Hin.
    apply spawn_reached in Hin as (workspaceFolder & Hsel & Hready & _ & Hout).
    rewrite Hout, (handlerTrace_ready _ _ _ _ _ Hsel Hready).
    unfold stageTrace. split.
    - do 3 (apply in_or_app; right). apply in_or_app. left. simpl. auto 10.
    - intros error Hend. rewrite Hend.
      repeat (apply in_or_app; right). now left. }
  assert (Htitle : forall options,
    In (WithProgress options) (handlerTrace imports services buildOrRun target) ->
    title options = "Building " ++ ApplicationName imports ++ " on " ++ target).
  { intros options Hin.
    apply handlerTrace_in in Hin as [Hin|(workspaceFolder & _ & [Hin|[_ Hin]])].
    - in_cases Hin.
    - apply checkTrace_plain in Hin as [Hno _]. now elim (Hno options).
    - apply stageTrace_in in Hin as [Hin|[(item & Hin)|(error & Hin)]].
      + simpl in Hin.
        repeat (destruct Hin as [Hin|Hin];
                [try discriminate Hin; try (now injection Hin as <-)|]).
        contradiction.
      + destruct Hin as [Hin|[Hin|Hin]]; discriminate Hin.
      + discriminate Hin. }
  assert (Hfailure : forall message error,
    In (LoggerError message (Some error))
       (handlerTrace imports services buildOrRun target) ->
    message = "Build failed").
  { intros message error Hin.
    apply handlerTrace_in in Hin as [Hin|(workspaceFolder & _ & [Hin|[_ Hin]])].
    - in_cases Hin.
    - apply checkTrace_plain in Hin as [_ Hno]. now elim (Hno message (Some error)).
    - apply stageTrace_in in Hin as [Hin|[(item & Hin)|(error' & Hin)]].
      + in_cases Hin.
      + destruct Hin as [Hin|[Hin|Hin]]; discriminate Hin.
      + now injection Hin as -> _. }
  split; [exact Hheader|]. split; [exact Hstarts|]. split; [exact Hfailures|].
  split; [exact Hproduced|]. split; [exact Htitle|]. split; [exact Hfailure|].
  split; [|split].
  - rewrite Hheader. discriminate.
  - intros options Hin. rewrite (Htitle options Hin). discriminate.
  - intros error Hin. apply Hfailure in Hin. discriminate Hin.
Qed.

Lemma C9_build_wording_in_every_mode_witness :
  In (ExecObservable {| resource := uri sampleFolder |} "python3"
        ["-m"; "beeware"; "run"; "ios"]
        {| cwd := "/home/dev/app"; token := 7 |})
     (traceOf (buildHandler sampleImports (readyServices (Errors "exit 1"))
                 lit_run "ios"))
  /\ ending (sampleOutput (Errors "exit 1")) = Errors "exit 1"
  /\ nth_error (traceOf (buildHandler sampleImports
                           (readyServices (Errors "exit 1")) lit_run "ios")) 1
     = Some (LoggerInfo "Build 'ios'")
  /\ progressStarts (traceOf (buildHandler sampleImports
                                (readyServices (Errors "exit 1")) lit_run "ios"))
     = [ {| location := Notification;
            title := "Building BeeWare on ios";
            cancellable := true |} ]
  /\ failures (traceOf (buildHandler sampleImports
                          (readyServices (Errors "exit 1")) lit_run "ios"))
     = [("Build failed", "exit 1")]
  /\ In (WithProgress {| location := Notification;
                         title := "Building BeeWare on ios";
                         cancellable := true |})
        (traceOf (buildHandler sampleImports (readyServices (Errors "exit 1"))
                    lit_run "ios"))
  /\ In (LoggerError "Build failed" (Some "exit 1"))
        (traceOf (buildHandler sampleImports (readyServices (Errors "exit 1"))
                    lit_run "ios")).
Proof.
  assert (H : In (ExecObservable {| resource := uri sampleFolder |} "python3"
                    ["-m"; "beeware"; "run"; "ios"]
                    {| cwd := "/home/dev/app"; token := 7 |})
                (traceOf (buildHandler sampleImports
                            (readyServices (Errors "exit 1")) lit_run "ios")))
    by in_trace.
  split; [exact H|]. split; [reflexivity|].
  destruct (C9_build_wording_in_every_mode sampleImports
              (readyServices (Errors "exit 1")) lit_run "ios")
    as (Hheader & Hstarts & Hfailures & Hproduced & _).
  destruct (Hproduced _ _ _ _ H) as (Hprogress & Hfailed).
  split; [exact Hheader|]. split; [exact Hstarts|]. split; [exact Hfailures|].
  split; [exact Hprogress|exact (Hfailed "exit 1" eq_refl)].
Defined.

(** A run-mode invocation whose subprocess fails, written out: the header,
    the title and the failure message all say Build. *)
Example run_mode_trace :
  traceOf (run sampleImports (readyServices (Errors "exit 1")) "ios")
  = [ LoggerInfo posixEOL;
      LoggerInfo "Build 'ios'";
      SelectWorkspaceFolder;
      LoggerInfo "Checking if module 'beeware' is installed.";
      IsInstalled "beeware" (uri sampleFolder);
      Install "beeware" (uri sampleFolder);
      LoggerInfo "Module 'beeware' is installed.";
      CreateProcessService (uri sampleFolder);
      GetSettings (uri sampleFolder);
      GetSettings (uri sampleFolder);
      OutputChannelShow;
      WithProgress {| location := Notification;
                      title := "Building BeeWare on ios";
                      cancellable := true |};
      ExecObservable {| resource := uri sampleFolder |} "python3"
        ["-m"; "beeware"; "run"; "ios"]
        {| cwd := "/home/dev/app"; token := 7 |};
      LoggerInfo "compiling"; OutputChannelAppend "compiling";
      LoggerError "warning: unused" None; OutputChannelAppend "warning: unused";
      LoggerInfo "done"; OutputChannelAppend "done";
      LoggerError "Build failed" (Some "exit 1") ].
Proof. reflexivity. Qed.

(** *** Calls of the installer *)

Lemma strictNotEqual_same (result : option string) (s : string) :
  strictNotEqual result s = false <-> result = Some s.
Proof.
  destruct result as [answer|]; simpl.
  - destruct (String.eqb_spec answer s); split; intros H;
      try reflexivity; try discriminate; congruence.
  - split; discriminate.
Qed.

Lemma accepted_spec (services : Services) (folder : Uri) :
  accepted services folder = true
  <-> isInstalled services "beeware" folder = true
      \/ showInformationMessage services
           "Module 'beeware' not installed, would you like to install it?"
           ["Install"; "Cancel"] = Some "Install".
Proof.
  unfold accepted, promptText.
  rewrite orb_true_iff, negb_true_iff, strictNotEqual_same. reflexivity.
Qed.

Lemma installs_stage (imports : Imports) (services : Services)
    (buildOrRun : BuildOrRun) (target : Target) (folder : Uri) :
  installs (stageTrace imports services buildOrRun target folder) = [].
Proof.
  unfold stageTrace. rewrite !installs_app, installs_lines.
  now destruct (ending _).
Qed.

Lemma prompts_stage (imports : Imports) (services : Services)
    (buildOrRun : BuildOrRun) (target : Target) (folder : Uri) :
  prompts (stageTrace imports services buildOrRun target folder) = [].
Proof.
  unfold stageTrace. rewrite !prompts_app, prompts_lines.
  now destruct (ending _).
Qed.

(** The installer is called once past the prompt, and not before. *)
Lemma installs_selected (imports : Imports) (services : Services)
    (buildOrRun : BuildOrRun) (target : Target)
    (workspaceFolder : WorkspaceFolder) :
  selectWorkspaceFolder services = Some workspaceFolder ->
  installs (handlerTrace imports services buildOrRun target)
  = if accepted services (uri workspaceFolder)
    then [("beeware", uri workspaceFolder)] else [].
Proof.
  intros Hsel. unfold handlerTrace, checkTrace, moduleReady.
  rewrite Hsel, !installs_app.
  destruct (isInstalled services "beeware" (uri workspaceFolder)),
    (accepted services (uri workspaceFolder)),
    (install services "beeware" (uri workspaceFolder));
    cbn [andb]; rewrite ?installs_stage; reflexivity.
Qed.

Lemma prompts_selected (imports : Imports) (services : Services)
    (buildOrRun : BuildOrRun) (target : Target)
    (workspaceFolder : WorkspaceFolder) :
  selectWorkspaceFolder services = Some workspaceFolder ->
  prompts (handlerTrace imports services buildOrRun target)
  = if isInstalled services "beeware" (uri workspaceFolder) then []
    else [(promptText, ["Install"; "Cancel"])].
Proof.
  intros Hsel. unfold handlerTrace, checkTrace, moduleReady.
  rewrite Hsel, !prompts_app.
  destruct (isInstalled services "beeware" (uri workspaceFolder)),
    (accepted services (uri workspaceFolder)),
    (install services "beeware" (uri workspaceFolder));
    cbn [andb]; rewrite ?prompts_stage; reflexivity.
Qed.

(** C10, as stated, fails: here a folder is selected, the module is reported
    missing and the user answers 'Cancel'; [install] is not called at all. *)
Lemma C10_install_once_counterexample :
  selectWorkspaceFolder declinedServices = Some sampleFolder
  /\ installs (traceOf (buildHandler sampleImports declinedServices
                          lit_build "ios")) = []
  /\ length (installs (traceOf (buildHandler sampleImports declinedServices
                                  lit_build "ios"))) <> 1.
Proof.
  split; [reflexivity|]. split; [reflexivity|]. vm_compute. discriminate.
Qed.

(** C10, amended: in an invocation that passes the workspace-folder check,
    [install] is called exactly once when the module is reported installed
    (no prompt is shown then) or the answer to the prompt is 'Install', and
    not at all when the module is reported missing and the answer is
    anything else; the subprocess stage is reached only if that [install]
    call returns true. *)
Theorem C10_install_past_the_prompt (imports : Imports) (services : Services)
    (buildOrRun : BuildOrRun) (target : Target)
    (workspaceFolder : WorkspaceFolder) :
  selectWorkspaceFolder services = Some workspaceFolder ->
  (isInstalled services "beeware" (uri workspaceFolder) = true
   \/ showInformationMessage services
        "Module 'beeware' not installed, would you like to install it?"
        ["Install"; "Cancel"] = Some "Install" ->
   installs (traceOf (buildHandler imports services buildOrRun target))
   = [("beeware", uri workspaceFolder)])
  /\ (isInstalled services "beeware" (uri workspaceFolder) = true ->
      prompts (traceOf (buildHandler imports services buildOrRun target)) = [])
  /\ (isInstalled services "beeware" (uri workspaceFolder) = false ->
      showInformationMessage services
        "Module 'beeware' not installed, would you like to install it?"
        ["Install"; "Cancel"] <> Some "Install" ->
      installs (traceOf (buildHandler imports services buildOrRun target)) = [])
  /\ (forall folder,
        In (CreateProcessService folder)
           (traceOf (buildHandler imports services buildOrRun target)) ->
        install services "beeware" (uri workspaceFolder) = true).
Proof.
  intros Hsel. rewrite traceOf_buildHandler.
  rewrite (installs_selected _ _ _ _ _ Hsel), (prompts_selected _ _ _ _ _ Hsel).
  split; [|split; [|split]].
  - intros Hpast. apply accepted_spec in Hpast. now rewrite Hpast.
  - intros Hfound. now rewrite Hfound.
  - intros Hmissing Hanswer.
    destruct (accepted services (uri workspaceFolder)) eqn:Hacc; [|reflexivity].
    apply accepted_spec in Hacc as [Hfound|Hinstall]; congruence.
  - intros folder Hin.
    apply create_reached in Hin as (selected & Hsel' & Hready & _).
    assert (selected = workspaceFolder) as -> by congruence.
    unfold moduleReady in Hready. now apply andb_prop in Hready.
Qed.

Lemma C10_install_past_the_prompt_witness :
  selectWorkspaceFolder (readyServices Completes) = Some sampleFolder
  /\ isInstalled (readyServices Completes) "beeware" (uri sampleFolder) = true
  /\ installs (traceOf (buildHandler sampleImports (readyServices Completes)
                          lit_build "ios"))
     = [("beeware", uri sampleFolder)]
  /\ prompts (traceOf (buildHandler sampleImports (readyServices Completes)
                         lit_build "ios")) = [].
Proof.
  split; [reflexivity|]. split; [reflexivity|].
  destruct (C10_install_past_the_prompt sampleImports (readyServices Completes)
              lit_build "ios" sampleFolder eq_refl)
    as (Honce & Hquiet & _ & _).
  split; [exact (Honce (or_introl eq_refl))|exact (Hquiet eq_refl)].
Defined.

(** ** Further properties of the provider *)

(** *** [checkAndInstallModule] on its own *)

(** X1: for any module name, folder and starting state,
    [checkAndInstallModule] only adds events to the trace and leaves the
    completion promise alone; it returns true exactly when the module was
    found or the prompt was answered 'Install', and [install] then returned
    true; it returns true exactly when it logged the confirmation line
    "Module '<name>' is installed."; and it logs nothing at error severity. *)
Theorem X1_checkAndInstallModule_outcome (services : Services)
    (moduleName : string) (folder : Uri) (st : State) :
  exists added,
    snd (checkAndInstallModule services moduleName folder st)
    = {| trace := (trace st ++ added)%list; completion := completion st |}
    /\ (fst (checkAndInstallModule services moduleName folder st) = true
        <-> (isInstalled services moduleName folder = true
             \/ showInformationMessage services
                  ("Module '" ++ moduleName
                   ++ "' not installed, would you like to install it?")
                  ["Install"; "Cancel"] = Some "Install")
            /\ install services moduleName folder = true)
    /\ (fst (checkAndInstallModule services moduleName folder st) = true
        <-> In (LoggerInfo ("Module '" ++ moduleName ++ "' is installed."))
               added)
    /\ (forall message data, ~ In (LoggerError message data) added).
Proof.
  cbv [checkAndInstallModule bind logger_info moduleInstaller_isInstalled
       moduleInstaller_install shell_showInformationMessage emit ret
       trace completion fst snd negb].
  destruct (isInstalled services moduleName folder).
  - destruct (install services moduleName folder);
      cbv [trace completion fst snd];
      eexists; (split; [rewrite <- !app_assoc; reflexivity|]);
      (split; [|split]);
      try solve [intros message data Hin; in_cases Hin];
      try solve [split; [discriminate|intros Hin; in_cases Hin]];
      try solve [split; [intros _; simpl; auto 10|reflexivity]].
    + split; [discriminate|intros [_ H]; discriminate H].
  - destruct (strictNotEqual _ "Install") eqn:Hanswer;
      [|destruct (install services moduleName folder)];
      cbv [trace completion fst snd];
      eexists; (split; [rewrite <- !app_assoc; reflexivity|]);
      (split; [|split]);
      try solve [intros message data Hin; in_cases Hin];
      try solve [split; [discriminate|intros Hin; in_cases Hin]];
      try solve [split; [intros _; simpl; auto 10|reflexivity]].
    + split; [discriminate|].
      intros [[H|H] _]; [discriminate H|].
      apply strictNotEqual_same in H. rewrite H in Hanswer.
      discriminate Hanswer.
    + apply strictNotEqual_same in Hanswer.
      split; [intros _; split; [now right|reflexivity]|reflexivity].
    + split; [discriminate|intros [_ H]; discriminate H].
Qed.

(** *** Runs that stop before the subprocess *)

(** X2: when a folder is selected and the user is past the prompt (module
    found, or 'Install' answered) but [install] returns false, the handler
    stops silently: [install] was called once, [execObservable] is not
    called, the log holds only the two header lines and the check line, all
    informational, no completion promise is created and the handler's
    promise is fulfilled. *)
Theorem X2_install_failure_is_silent (imports : Imports) (services : Services)
    (buildOrRun : BuildOrRun) (target : Target)
    (workspaceFolder : WorkspaceFolder) :
  selectWorkspaceFolder services = Some workspaceFolder ->
  (isInstalled services "beeware" (uri workspaceFolder) = true
   \/ showInformationMessage services
        "Module 'beeware' not installed, would you like to install it?"
        ["Install"; "Cancel"] = Some "Install") ->
  install services "beeware" (uri workspaceFolder) = false ->
  spawns (traceOf (buildHandler imports services buildOrRun target)) = []
  /\ installs (traceOf (buildHandler imports services buildOrRun target))
     = [("beeware", uri workspaceFolder)]
  /\ loggerEntries (traceOf (buildHandler imports services buildOrRun target))
     = [ (SevInfo, EOL imports);
         (SevInfo, ("Build '" ++ target ++ "'")%string);
         (SevInfo, "Checking if module 'beeware' is installed.") ]
  /\ promiseOf (buildHandler imports services buildOrRun target) = None
  /\ returned (buildHandler imports services buildOrRun target) = Fulfilled.
Proof.
  intros Hsel Hpast Hfail. apply accepted_spec in Hpast.
  assert (Hready : moduleReady services (uri workspaceFolder) = false).
  { unfold moduleReady. now rewrite Hpast, Hfail. }
  rewrite traceOf_buildHandler, promiseOf_buildHandler, returned_buildHandler.
  rewrite (handlerTrace_not_ready _ _ _ _ _ Hsel Hready).
  unfold handlerCompletion, checkTrace. rewrite Hsel, Hready, Hpast, Hfail.
  now destruct (isInstalled services "beeware" (uri workspaceFolder)).
Qed.

Lemma X2_install_failure_is_silent_witness :
  selectWorkspaceFolder installFailsServices = Some sampleFolder
  /\ isInstalled installFailsServices "beeware" (uri sampleFolder) = true
  /\ install installFailsServices "beeware" (uri sampleFolder) = false
  /\ spawns (traceOf (buildHandler sampleImports installFailsServices
                        lit_build "ios")) = []
  /\ loggerEntries (traceOf (buildHandler sampleImports installFailsServices
                               lit_build "ios"))
     = [ (SevInfo, posixEOL); (SevInfo, "Build 'ios'");
         (SevInfo, "Checking if module 'beeware' is installed.") ].
Proof.
  split; [reflexivity|]. split; [reflexivity|]. split; [reflexivity|].
  destruct (X2_install_failure_is_silent sampleImports installFailsServices
              lit_build "ios" sampleFolder eq_refl (or_introl eq_refl) eq_refl)
    as (Hspawns & _ & Hlog & _).
  split; [exact Hspawns|exact Hlog].
Defined.

Ltac lines_side :=
  intros item; unfold lineEvents; now destruct (source item =? "stderr").

(** Unfolds the closed form of the trace and splits it by the answers of
    the services. *)
Ltac by_answers services :=
  unfold handlerTrace, checkTrace, moduleReady, stageTrace;
  destruct (selectWorkspaceFolder services) as [workspaceFolder|];
  [ destruct (isInstalled services "beeware" (uri workspaceFolder)),
      (accepted services (uri workspaceFolder)),
      (install services "beeware" (uri workspaceFolder)); cbn [andb]
  | ].

(** X3: in every invocation, whatever the services answer, the folder
    picker is asked exactly once, and the installed check, the prompt, the
    install, the progress notification and the subprocess call each happen
    at most once. *)
Theorem X3_each_service_at_most_once (imports : Imports) (services : Services)
    (buildOrRun : BuildOrRun) (target : Target) :
  length (selections (traceOf (buildHandler imports services buildOrRun target)))
  = 1
  /\ length (installedQueries
               (traceOf (buildHandler imports services buildOrRun target))) <= 1
  /\ length (prompts
               (traceOf (buildHandler imports services buildOrRun target))) <= 1
  /\ length (installs
               (traceOf (buildHandler imports services buildOrRun target))) <= 1
  /\ length (progressStarts
               (traceOf (buildHandler imports services buildOrRun target))) <= 1
  /\ length (spawns
               (traceOf (buildHandler imports services buildOrRun target))) <= 1.
Proof.
  rewrite traceOf_buildHandler.
  unfold selections, installedQueries, prompts, installs, progressStarts, spawns.
  by_answers services;
    rewrite ?pick_app;
    rewrite ?pick_lines_nil by lines_side;
    try destruct (ending _); cbn; auto 10.
Qed.

(** X4: a completion promise is created exactly when [execObservable] is
    called: the promise is absent after the run if and only if no subprocess
    was started. *)
Theorem X4_promise_iff_subprocess (imports : Imports) (services : Services)
    (buildOrRun : BuildOrRun) (target : Target) :
  promiseOf (buildHandler imports services buildOrRun target) = None
  <-> spawns (traceOf (buildHandler imports services buildOrRun target)) = [].
Proof.
  rewrite traceOf_buildHandler, promiseOf_buildHandler.
  destruct (selectWorkspaceFolder services) as [workspaceFolder|] eqn:Hsel.
  - destruct (moduleReady services (uri workspaceFolder)) eqn:Hready.
    + rewrite (ready_completion _ _ _ _ _ Hsel Hready),
        (ready_spawns _ _ _ _ _ Hsel Hready).
      split; discriminate.
    + rewrite (handlerTrace_not_ready _ _ _ _ _ Hsel Hready).
      unfold handlerCompletion. rewrite Hsel, Hready.
      rewrite spawns_app, spawns_check. split; reflexivity.
  - rewrite (handlerTrace_no_folder _ _ _ _ Hsel).
    unfold handlerCompletion. rewrite Hsel. split; reflexivity.
Qed.

(** X5: while the output stream has neither completed nor signalled an
    error, the completion promise stays pending and no failure entry (an
    error entry logged together with an error) is in the log. *)
Theorem X5_unfinished_stream_pending (imports : Imports) (services : Services)
    (buildOrRun : BuildOrRun) (target : Target)
    (service : ProcessService) (file : string) (arguments : list string)
    (options : SpawnOptions) :
  In (ExecObservable service file arguments options)
     (traceOf (buildHandler imports services buildOrRun target)) ->
  ending (execObservable services service file arguments options) = NeverEnds ->
  promiseOf (buildHandler imports services buildOrRun target) = Some Pending
  /\ (forall message error,
        ~ In (LoggerError message (Some error))
             (traceOf (buildHandler imports services buildOrRun target))).
Proof.
  rewrite traceOf_buildHandler, promiseOf_buildHandler. intros Hin Hend.
  apply spawn_reached in Hin as (workspaceFolder & Hsel & Hready & _ & Hout).
  rewrite Hout in Hend. split.
  - rewrite (ready_completion _ _ _ _ _ Hsel Hready), Hend. reflexivity.
  - intros message error Hin.
    rewrite (handlerTrace_ready _ _ _ _ _ Hsel Hready) in Hin.
    unfold stageTrace in Hin. rewrite Hend in Hin.
    cbn [closing] in Hin. rewrite app_nil_r in Hin.
    repeat (apply in_app_or in Hin as [Hin|Hin]).
    + in_cases Hin.
    + destruct (isInstalled services "beeware" (uri workspaceFolder));
        in_cases Hin.
    + in_cases Hin.
    + in_cases Hin.
    + apply in_lines in Hin as (item & _ & [Hin|[Hin|Hin]]); discriminate Hin.
Qed.

Lemma X5_unfinished_stream_pending_witness :
  In (ExecObservable {| resource := uri sampleFolder |} "python3"
        ["-m"; "beeware"; "run"; "ios"]
        {| cwd := "/home/dev/app"; token := 7 |})
     (traceOf (buildHandler sampleImports (readyServices NeverEnds)
                 lit_run "ios"))
  /\ ending (sampleOutput NeverEnds) = NeverEnds
  /\ promiseOf (buildHandler sampleImports (readyServices NeverEnds)
                  lit_run "ios") = Some Pending.
Proof.
  assert (H : In (ExecObservable {| resource := uri sampleFolder |} "python3"
                    ["-m"; "beeware"; "run"; "ios"]
                    {| cwd := "/home/dev/app"; token := 7 |})
                (traceOf (buildHandler sampleImports (readyServices NeverEnds)
                            lit_run "ios"))) by in_trace.
  split; [exact H|]. split; [reflexivity|].
  exact (proj1 (X5_unfinished_stream_pending sampleImports
                  (readyServices NeverEnds) lit_run "ios" _ _ _ _ H eq_refl)).
Defined.

(** *** What the user sees *)

Lemma uiEvents_lines (items : list Output) :
  uiEvents (flat_map lineEvents items)
  = map (fun item => OutputChannelAppend (out item)) items.
Proof.
  unfold uiEvents. rewrite pick_flat_map, <- flat_map_singleton.
  apply flat_map_ext. intros item. unfold lineEvents.
  now destruct (source item =? "stderr").
Qed.

(** Settles an observation of a run that stops before the stage, given that
    the module check fails whenever a folder is selected. *)
Ltac stopped_run services Hstopped :=
  let Hsel := fresh "Hsel" in
  destruct (selectWorkspaceFolder services) as [workspaceFolder|] eqn:Hsel;
  [ rewrite (handlerTrace_not_ready _ _ _ _ _ Hsel (Hstopped _ eq_refl));
    unfold checkTrace;
    now destruct (isInstalled services "beeware" (uri workspaceFolder)),
      (accepted services (uri workspaceFolder)),
      (install services "beeware" (uri workspaceFolder))
  | now rewrite (handlerTrace_no_folder _ _ _ _ Hsel) ].

(** X6: an invocation that starts no subprocess (no folder, prompt declined,
    or install failed) leaves the user interface and the configuration
    alone: the output channel is neither shown nor appended to, no progress
    notification is started, no settings are read and no process service is
    created. *)
Theorem X6_no_subprocess_no_ui (imports : Imports) (services : Services)
    (buildOrRun : BuildOrRun) (target : Target) :
  spawns (traceOf (buildHandler imports services buildOrRun target)) = [] ->
  channelEvents (traceOf (buildHandler imports services buildOrRun target)) = []
  /\ progressStarts (traceOf (buildHandler imports services buildOrRun target))
     = []
  /\ settingsReads (traceOf (buildHandler imports services buildOrRun target))
     = []
  /\ (forall folder,
        ~ In (CreateProcessService folder)
             (traceOf (buildHandler imports services buildOrRun target))).
Proof.
  rewrite traceOf_buildHandler. intros Hnone.
  assert (Hstopped :
    forall workspaceFolder,
      selectWorkspaceFolder services = Some workspaceFolder ->
      moduleReady services (uri workspaceFolder) = false).
  { intros workspaceFolder Hsel.
    destruct (moduleReady services (uri workspaceFolder)) eqn:Hready;
      [|reflexivity].
    rewrite (ready_spawns _ _ _ _ _ Hsel Hready) in Hnone. discriminate Hnone. }
  split; [|split; [|split]].
  - stopped_run services Hstopped.
  - stopped_run services Hstopped.
  - stopped_run services Hstopped.
  - intros folder Hin.
    apply create_reached in Hin as (workspaceFolder & Hsel & Hready & _).
    rewrite (Hstopped _ Hsel) in Hready. discriminate Hready.
Qed.

Lemma X6_no_subprocess_no_ui_witness :
  spawns (traceOf (buildHandler sampleImports declinedServices
                     lit_build "ios")) = []
  /\ channelEvents (traceOf (buildHandler sampleImports declinedServices
                               lit_build "ios")) = []
  /\ progressStarts (traceOf (buildHandler sampleImports declinedServices
                                lit_build "ios")) = [].
Proof.
  split; [reflexivity|].
  destruct (X6_no_subprocess_no_ui sampleImports declinedServices
              lit_build "ios" eq_refl) as (Hchannel & Hprogress & _).
  split; [exact Hchannel|exact Hprogress].
Defined.

(** X7: in an invocation that starts the subprocess, what the user sees
    happens in this order: the output channel is shown, one cancellable
    progress notification titled "Building <ApplicationName> on <target>"
    is started, [execObservable] is called, and then the text of each
    emitted item is appended to the channel, in emission order and nothing
    else. *)
Theorem X7_ui_order (imports : Imports) (services : Services)
    (buildOrRun : BuildOrRun) (target : Target)
    (service : ProcessService) (file : string) (arguments : list string)
    (options : SpawnOptions) :
  In (ExecObservable service file arguments options)
     (traceOf (buildHandler imports services buildOrRun target)) ->
  uiEvents (traceOf (buildHandler imports services buildOrRun target))
  = ([ OutputChannelShow;
       WithProgress {| location := Notification;
                       title := "Building " ++ ApplicationName imports
                                ++ " on " ++ target;
                       cancellable := true |};
       ExecObservable service file arguments options ]
     ++ map (fun item => OutputChannelAppend (out item))
          (emitted (execObservable services service file arguments options)))%list.
Proof.
  rewrite traceOf_buildHandler. intros Hin.
  apply spawn_reached in Hin as (workspaceFolder & Hsel & Hready & Hcall & Hout).
  rewrite Hout. injection Hcall as -> -> -> ->.
  rewrite (handlerTrace_ready _ _ _ _ _ Hsel Hready).
  unfold stageTrace, uiEvents.
  rewrite !pick_app. fold uiEvents. rewrite uiEvents_lines.
  destruct (isInstalled services "beeware" (uri workspaceFolder)),
    (ending (spawnOutput imports services buildOrRun target (uri workspaceFolder)));
    cbn; now rewrite ?app_nil_r.
Qed.

Lemma X7_ui_order_witness :
  In (ExecObservable {| resource := uri sampleFolder |} "python3"
        ["-m"; "beeware"; "build"; "ios"]
        {| cwd := "/home/dev/app"; token := 7 |})
     (traceOf (buildHandler sampleImports (readyServices (Errors "exit 1"))
                 lit_build "ios"))
  /\ uiEvents (traceOf (buildHandler sampleImports
                          (readyServices (Errors "exit 1")) lit_build "ios"))
     = [ OutputChannelShow;
         WithProgress {| location := Notification;
                         title := "Building BeeWare on ios";
                         cancellable := true |};
         ExecObservable {| resource := uri sampleFolder |} "python3"
           ["-m"; "beeware"; "build"; "ios"]
           {| cwd := "/home/dev/app"; token := 7 |};
         OutputChannelAppend "compiling";
         OutputChannelAppend "warning: unused";
         OutputChannelAppend "done" ].
Proof.
  assert (H : In (ExecObservable {| resource := uri sampleFolder |} "python3"
                    ["-m"; "beeware"; "build"; "ios"]
                    {| cwd := "/home/dev/app"; token := 7 |})
                (traceOf (buildHandler sampleImports
                            (readyServices (Errors "exit 1")) lit_build "ios")))
    by in_trace.
  split; [exact H|].
  exact (X7_ui_order sampleImports (readyServices (Errors "exit 1"))
           lit_build "ios" _ _ _ _ H).
Defined.

(** *** The prompt and the mode *)

(** X8: the handler looks at the answer of the prompt only to see whether
    it is 'Install': with any two answers other than 'Install' (another
    button, or the prompt dismissed) the whole run is the same, trace,
    completion promise and returned promise. *)
Theorem X8_any_refusal_alike (imports : Imports) (services : Services)
    (buildOrRun : BuildOrRun) (target : Target)
    (answer1 answer2 : option string) :
  answer1 <> Some "Install" ->
  answer2 <> Some "Install" ->
  buildHandler imports (withAnswer services answer1) buildOrRun target initial
  = buildHandler imports (withAnswer services answer2) buildOrRun target initial.
Proof.
  intros Hno1 Hno2. rewrite !buildHandler_run.
  apply strictNotEqual_other in Hno1, Hno2.
  assert (Hacc : forall folder,
    accepted (withAnswer services answer1) folder
    = accepted (withAnswer services answer2) folder).
  { intros folder. unfold accepted. cbn. now rewrite Hno1, Hno2. }
  unfold handlerTrace, handlerCompletion, checkTrace, moduleReady.
  cbn [selectWorkspaceFolder withAnswer].
  destruct (selectWorkspaceFolder services) as [workspaceFolder|];
    [|reflexivity].
  rewrite !Hacc. reflexivity.
Qed.

Lemma X8_any_refusal_alike_witness :
  Some "Cancel" <> Some "Install"
  /\ @None string <> Some "Install"
  /\ buildHandler sampleImports (withAnswer declinedServices (Some "Cancel"))
       lit_build "ios" initial
     = buildHandler sampleImports (withAnswer declinedServices None)
         lit_build "ios" initial.
Proof.
  assert (H1 : Some "Cancel" <> Some "Install") by discriminate.
  assert (H2 : @None string <> Some "Install") by discriminate.
  split; [exact H1|]. split; [exact H2|].
  exact (X8_any_refusal_alike sampleImports declinedServices lit_build "ios"
           _ _ H1 H2).
Defined.

(** X9: for the same services and target, everything that happens before
    the [execObservable] call (log lines, folder selection, module check,
    prompt, install, settings reads, channel, progress notification) is the
    same for [run] as for [build], and the mode shows in the arguments of
    that call: either neither operation starts a subprocess, or each starts
    exactly one, with the same service, command and options, and with
    argument lists that are one common list followed by 'build' and the
    target for [build], by 'run' and the target for [run]; the two calls
    then differ. *)
Theorem X9_mode_shows_only_in_subcommand (imports : Imports)
    (services : Services) (target : Target) :
  beforeSpawn (traceOf (run imports services target))
  = beforeSpawn (traceOf (build imports services target))
  /\ ((spawns (traceOf (build imports services target)) = []
       /\ spawns (traceOf (run imports services target)) = [])
      \/ exists service file base options,
           spawns (traceOf (build imports services target))
           = [(service, file, (base ++ ["build"; target])%list, options)]
           /\ spawns (traceOf (run imports services target))
              = [(service, file, (base ++ ["run"; target])%list, options)]
           /\ spawns (traceOf (build imports services target))
              <> spawns (traceOf (run imports services target))).
Proof.
  change (run imports services target)
    with (entryPoint imports services lit_run target).
  change (build imports services target)
    with (entryPoint imports services lit_build target).
  rewrite !traceOf_entryPoint. split.
  - by_answers services; reflexivity.
  - destruct (selectWorkspaceFolder services) as [workspaceFolder|] eqn:Hsel;
      [destruct (moduleReady services (uri workspaceFolder)) eqn:Hready|].
    + right.
      exists {| resource := uri workspaceFolder |},
        (command (spawnInfo imports services (uri workspaceFolder))),
        (args (spawnInfo imports services (uri workspaceFolder))),
        (spawnOptions services (uri workspaceFolder)).
      rewrite !(ready_spawns _ _ _ _ _ Hsel Hready).
      split; [reflexivity|]. split; [reflexivity|].
      unfold spawnArgs. intros Hsame. injection Hsame as Hsame.
      apply app_inv_head in Hsame. discriminate Hsame.
    + left.
      rewrite !(handlerTrace_not_ready _ _ _ _ _ Hsel Hready).
      rewrite !spawns_app, !spawns_check. split; reflexivity.
    + left. rewrite !(handlerTrace_no_folder _ _ _ _ Hsel).
      split; reflexivity.
Qed.

(** X10: the module installer is only ever consulted about the module
    'beeware' in the folder the user selected, and [install] is never
    called without [isInstalled] having been asked in the same run. *)
Theorem X10_installer_calls (imports : Imports) (services : Services)
    (buildOrRun : BuildOrRun) (target : Target)
    (moduleName : string) (folder : Uri) :
  In (IsInstalled moduleName folder)
     (traceOf (buildHandler imports services buildOrRun target))
  \/ In (Install moduleName folder)
        (traceOf (buildHandler imports services buildOrRun target)) ->
  moduleName = "beeware"
  /\ (exists workspaceFolder,
        selectWorkspaceFolder services = Some workspaceFolder
        /\ uri workspaceFolder = folder)
  /\ In (IsInstalled moduleName folder)
        (traceOf (buildHandler imports services buildOrRun target)).
Proof.
  rewrite traceOf_buildHandler. intros Hcall.
  assert (Hfrom : forall e,
    e = IsInstalled moduleName folder \/ e = Install moduleName folder ->
    In e (handlerTrace imports services buildOrRun target) ->
    moduleName = "beeware"
    /\ exists workspaceFolder,
         selectWorkspaceFolder services = Some workspaceFolder
         /\ uri workspaceFolder = folder).
  { intros e He Hin.
    apply handlerTrace_in in Hin as [Hin|(workspaceFolder & Hsel & [Hin|[_ Hin]])].
    - destruct He as [-> | ->]; in_cases Hin.
    - assert (Hhere : e = IsInstalled "beeware" (uri workspaceFolder)
                      \/ e = Install "beeware" (uri workspaceFolder)).
      { unfold checkTrace in Hin.
        destruct (isInstalled services "beeware" (uri workspaceFolder)),
          (accepted services (uri workspaceFolder)),
          (install services "beeware" (uri workspaceFolder));
          simpl in Hin; destruct He as [-> | ->];
          repeat (destruct Hin as [Hin|Hin];
                  [try discriminate Hin;
                   try (left; now symmetry); try (right; now symmetry)|]);
          contradiction. }
      destruct He as [-> | ->], Hhere as [Hhere|Hhere];
        try discriminate Hhere; injection Hhere as -> ->;
        (split; [reflexivity|now exists workspaceFolder]).
    - apply stageTrace_in in Hin as [Hin|[(item & Hin)|(error & Hin)]].
      + destruct He as [-> | ->]; in_cases Hin.
      + destruct He as [-> | ->], Hin as [Hin|[Hin|Hin]]; discriminate Hin.
      + destruct He as [-> | ->]; discriminate Hin. }
  assert (Hwho : moduleName = "beeware"
                 /\ exists workspaceFolder,
                      selectWorkspaceFolder services = Some workspaceFolder
                      /\ uri workspaceFolder = folder).
  { destruct Hcall as [Hin|Hin].
    - exact (Hfrom _ (or_introl eq_refl) Hin).
    - exact (Hfrom _ (or_intror eq_refl) Hin). }
  destruct Hwho as (-> & workspaceFolder & Hsel & <-).
  split; [reflexivity|]. split; [now exists workspaceFolder|].
  unfold handlerTrace, checkTrace. rewrite Hsel.
  apply in_or_app. right. apply in_or_app. left. simpl. auto.
Qed.

Lemma X10_installer_calls_witness :
  (In (IsInstalled "beeware" (uri sampleFolder))
      (traceOf (buildHandler sampleImports (readyServices Completes)
                  lit_build "ios"))
   \/ In (Install "beeware" (uri sampleFolder))
         (traceOf (buildHandler sampleImports (readyServices Completes)
                     lit_build "ios")))
  /\ exists workspaceFolder,
       selectWorkspaceFolder (readyServices Completes) = Some workspaceFolder
       /\ uri workspaceFolder = uri sampleFolder.
Proof.
  assert (H : In (IsInstalled "beeware" (uri sampleFolder))
                 (traceOf (buildHandler sampleImports (readyServices Completes)
                             lit_build "ios"))
              \/ In (Install "beeware" (uri sampleFolder))
                    (traceOf (buildHandler sampleImports
                                (readyServices Completes) lit_build "ios")))
    by (right; in_trace).
  split; [exact H|].
  exact (proj1 (proj2 (X10_installer_calls sampleImports
                         (readyServices Completes) lit_build "ios"
                         "beeware" (uri sampleFolder) H))).
Defined.

(** *** When the subprocess is started *)

(** X11: the subprocess is started, and then exactly once, if and only if
    a folder is selected, the module is reported installed or the prompt is
    answered 'Install', and [install] returns true. *)
Theorem X11_subprocess_iff_ready (imports : Imports) (services : Services)
    (buildOrRun : BuildOrRun) (target : Target) :
  (exists call,
      spawns (traceOf (buildHandler imports services buildOrRun target))
      = [call])
  <-> exists workspaceFolder,
        selectWorkspaceFolder services = Some workspaceFolder
        /\ (isInstalled services "beeware" (uri workspaceFolder) = true
            \/ showInformationMessage services
                 "Module 'beeware' not installed, would you like to install it?"
                 ["Install"; "Cancel"] = Some "Install")
        /\ install services "beeware" (uri workspaceFolder) = true.
Proof.
  rewrite traceOf_buildHandler. split.
  - intros (call & Hcall).
    destruct (selectWorkspaceFolder services) as [workspaceFolder|] eqn:Hsel.
    + destruct (moduleReady services (uri workspaceFolder)) eqn:Hready.
      * exists workspaceFolder. unfold moduleReady in Hready.
        apply andb_prop in Hready as [Hacc Hinst].
        apply accepted_spec in Hacc. auto.
      * rewrite (handlerTrace_not_ready _ _ _ _ _ Hsel Hready) in Hcall.
        rewrite spawns_app, spawns_check in Hcall. discriminate Hcall.
    + rewrite (handlerTrace_no_folder _ _ _ _ Hsel) in Hcall.
      discriminate Hcall.
  - intros (workspaceFolder & Hsel & Hpast & Hinst).
    apply accepted_spec in Hpast.
    assert (Hready : moduleReady services (uri workspaceFolder) = true).
    { unfold moduleReady. now rewrite Hpast, Hinst. }
    eexists. apply (ready_spawns _ _ _ _ _ Hsel Hready).
Qed.
